(** * label_processor: layout arithmetic and grid rendering

    A shallow embedding of [streamlit-main.py]: [calculate_layout]
    (the layout calculator), [create_pdf_labels] (the grid renderer) and
    the per-file loop of [main].

    Numbers.  The program computes with Python floats.  Two embeddings
    of the layout calculator are given.  The first computes with exact
    rationals ([Q], equality [==]): it is used where a statement follows
    the expressions and the control flow of the code and rounding changes
    no outcome.  The second, [Binary64.calculate_layout], computes with
    binary64 floats, every operation rounded as Python rounds it and an
    integer converted to a float where Python converts it: it is used
    where the exact answer and the rounded one differ (exact cancellation,
    a comparison at the boundary).  Row and column counts are Python
    integers ([Z]).

    Exceptions.  A Python call either returns or raises; [result] records
    which.  Division is Python's true division and raises
    [ZeroDivisionError] on a zero divisor; converting an integer that is
    too large for a float raises [OverflowError].

    State.  [calculate_layout] writes the derived size back into the
    [label_info] dictionary it was given: it lives in the state-and-
    exception monad [SE], whose state survives a raise (as a mutated
    dictionary does).  The renderer and [main] talk to the reportlab
    canvas, the file system and streamlit: they live in [IO], which logs
    the calls made, also those made before a raise. *)

From Stdlib Require Import ZArith QArith Qfield Lqa Lia List Ascii String Bool.
From Stdlib Require Uint63 PrimFloat SpecFloat FloatOps FloatAxioms FloatLemmas.
Import ListNotations.
Open Scope Q_scope.

(** ** Exceptions and the monad *)

Inductive exn : Type :=
| ValueError (msg : string)
| ZeroDivisionError
| OverflowError
| BackendError (op : string).

Inductive result (A : Type) : Type :=
| Ok (a : A)
| Raise (e : exn).

Arguments Ok {A} a.
Arguments Raise {A} e.

Definition SE (S A : Type) : Type := S -> S * result A.

Definition ret {S A} (a : A) : SE S A := fun s => (s, Ok a).

Definition raise {S A} (e : exn) : SE S A := fun s => (s, Raise e).

Definition bind {S A B} (c : SE S A) (k : A -> SE S B) : SE S B :=
  fun s =>
    match c s with
    | (s', Ok a) => k a s'
    | (s', Raise e) => (s', Raise e)
    end.

Definition get {S} : SE S S := fun s => (s, Ok s).

Definition modify {S} (f : S -> S) : SE S unit := fun s => (f s, Ok tt).

Declare Scope se_scope.
Delimit Scope se_scope with se.
Notation "x <- c ;; k" := (bind c (fun x => k))
  (at level 61, c at next level, right associativity) : se_scope.
Notation "' pat <- c ;; k" := (bind c (fun x => match x with pat => k end))
  (at level 61, pat pattern, c at next level, right associativity) : se_scope.
Notation "c ;; k" := (bind c (fun _ => k))
  (at level 61, right associativity) : se_scope.

(** ** Python arithmetic *)

(** [reportlab.lib.units.mm]: points per millimetre, 72 / 25.4. *)
Definition mm : Q := 360 # 127.

(** [x / y] on numbers. *)
Definition true_div {S} (x y : Q) : SE S Q :=
  if Qeq_bool y 0 then raise ZeroDivisionError else ret (x / y).

(** [x > y] on numbers. *)
Definition Qgtb (x y : Q) : bool := negb (Qle_bool x y).

(** [range(n)]. *)
Definition range (n : Z) : list Z := map Z.of_nat (seq 0 (Z.to_nat n)).

(** ** Data *)

(** [page_settings['margins']], in millimetres. *)
Record Margins : Type := {
  top : Q;
  bottom : Q;
  left : Q;
  right : Q
}.

Inductive Orientation : Type := Portrait | Landscape.

(** The [page_settings] dictionary; [page_size] is in points. *)
Record PageSettings : Type := {
  page_size : Q * Q;
  margins : Margins;
  orientation : Orientation
}.

(** The [label_info] dictionary; the key ['dimensions'] (millimetres) may
    be absent. *)
Record LabelInfo : Type := {
  path : string;
  rows : Z;
  columns : Z;
  dimensions : option (Q * Q)
}.

Definition set_dimensions (d : Q * Q) (label_info : LabelInfo) : LabelInfo :=
  {| path := path label_info;
     rows := rows label_info;
     columns := columns label_info;
     dimensions := Some d |}.

(** The dictionary [calculate_layout] returns, in points. *)
Record Layout : Type := {
  label_width : Q;
  label_height : Q;
  space_x : Q;
  space_y : Q
}.

(** ** The layout calculator *)

(** Line 15: every margin times [mm]. *)
Definition margins_in_points (m : Margins) : Margins :=
  {| top := top m * mm;
     bottom := bottom m * mm;
     left := left m * mm;
     right := right m * mm |}.

(** Lines 17 and 18. *)
Definition available_width (page_settings : PageSettings) : Q :=
  fst (page_size page_settings)
  - (left (margins_in_points (margins page_settings))
     + right (margins_in_points (margins page_settings))).

Definition available_height (page_settings : PageSettings) : Q :=
  snd (page_size page_settings)
  - (top (margins_in_points (margins page_settings))
     + bottom (margins_in_points (margins page_settings))).

Definition too_large_msg : string :=
  "Label dimensions are too large for the page size and margins provided.".

Open Scope se_scope.

(** Lines 13 to 34.  The state is the [label_info] dictionary. *)
Definition calculate_layout (page_settings : PageSettings) : SE LabelInfo Layout :=
  let available_width := available_width page_settings in
  let available_height := available_height page_settings in
  label_info <- get ;;
  '(label_width, label_height) <-
    match dimensions label_info with
    | None =>
        label_width <- true_div available_width (inject_Z (columns label_info)) ;;
        label_height <- true_div available_height (inject_Z (rows label_info)) ;;
        width_mm <- true_div label_width mm ;;
        height_mm <- true_div label_height mm ;;
        modify (set_dimensions (width_mm, height_mm)) ;;
        ret (label_width, label_height)
    | Some (label_width, label_height) =>
        ret (label_width * mm, label_height * mm)
    end ;;
  space_between_labels_x <-
    true_div (available_width - label_width * inject_Z (columns label_info))
             (inject_Z (Z.max (columns label_info - 1) 1)) ;;
  space_between_labels_y <-
    true_div (available_height - label_height * inject_Z (rows label_info))
             (inject_Z (Z.max (rows label_info - 1) 1)) ;;
  if Qgtb label_width available_width || Qgtb label_height available_height
  then raise (ValueError too_large_msg)
  else ret {| label_width := label_width;
              label_height := label_height;
              space_x := space_between_labels_x;
              space_y := space_between_labels_y |}.

Close Scope se_scope.

(** The cell size chosen by lines 20 to 27, in points: the equal
    subdivision of the available area, or the explicit size times [mm]. *)
Definition cell_size (page_settings : PageSettings) (label_info : LabelInfo) : Q * Q :=
  match dimensions label_info with
  | None => (available_width page_settings / inject_Z (columns label_info),
             available_height page_settings / inject_Z (rows label_info))
  | Some (w, h) => (w * mm, h * mm)
  end.

(** The dictionary as [calculate_layout] leaves it. *)
Definition label_info_after (page_settings : PageSettings) (label_info : LabelInfo)
  : LabelInfo :=
  match dimensions label_info with
  | None => set_dimensions (fst (cell_size page_settings label_info) / mm,
                            snd (cell_size page_settings label_info) / mm) label_info
  | Some _ => label_info
  end.

(** The spacing formula as the specification writes it. *)
Definition spacing (available size : Q) (n : Z) : Q :=
  (available - size * inject_Z n) / inject_Z (Z.max (n - 1) 1).

(** The request of the specification: at least one row and one column. *)
Definition valid_request (li : LabelInfo) : Prop :=
  (1 <= rows li)%Z /\ (1 <= columns li)%Z.


(** ** The layout calculator in binary64

    Python's [float] is an IEEE 754 binary64 number and each of [+], [-],
    [*], [/] rounds to nearest, ties to even, as the primitive floats do.
    An [int] met by a float operator is first converted to the nearest
    float, which raises [OverflowError] when it is too large; a division
    whose divisor is zero raises [ZeroDivisionError] (an [int] converts to
    0.0 only if it is 0).  Page sizes, margins and explicit dimensions are
    floats here: a margin typed as a whole number below 2^53 is that
    float. *)

Module Binary64.

Import PrimFloat SpecFloat FloatOps.
#[local] Set Warnings "-inexact-float".
#[local] Open Scope float_scope.
#[local] Open Scope se_scope.

(** [reportlab.lib.units]: [inch = 72.0], [cm = inch / 2.54],
    [mm = cm * 0.1]. *)
Definition inch : float := 72.
Definition cm : float := inch / 2.54.
Definition mm : float := cm * 0.1.

(** [reportlab.lib.pagesizes.A4]. *)
Definition A4 : float * float := (210 * mm, 297 * mm).

(** The nearest float of an integer. *)
Definition float_of_int (n : Z) : float :=
  SF2Prim (binary_normalize prec emax n 0 false).

(** The least magnitude that rounds beyond the largest float: half a
    unit in the last place below 2^1024. *)
Definition float_max_int : Z := 2 ^ 1024 - 2 ^ 970.

(** The conversion of an [int] operand. *)
Definition to_float {S} (n : Z) : SE S float :=
  if (float_max_int <=? Z.abs n)%Z then raise OverflowError
  else ret (float_of_int n).

(** [x / y] on floats. *)
Definition true_div {S} (x y : float) : SE S float :=
  if y =? 0 then raise ZeroDivisionError else ret (x / y).

(** [x / n], [n] an [int]. *)
Definition true_div_int {S} (x : float) (n : Z) : SE S float :=
  y <- to_float n ;;
  if (n =? 0)%Z then raise ZeroDivisionError else ret (x / y).

(** [x * n], [n] an [int]. *)
Definition mul_int {S} (x : float) (n : Z) : SE S float :=
  y <- to_float n ;;
  ret (x * y).

(** [x > y] on floats. *)
Definition gtb (x y : float) : bool := y <? x.

(** The two dictionaries, with the entries [calculate_layout] reads. *)
Record Margins : Type := {
  top : float;
  bottom : float;
  left : float;
  right : float
}.

Record PageSettings : Type := {
  page_size : float * float;
  margins : Margins
}.

Record LabelInfo : Type := {
  rows : Z;
  columns : Z;
  dimensions : option (float * float)
}.

Definition set_dimensions (d : float * float) (label_info : LabelInfo) : LabelInfo :=
  {| rows := rows label_info;
     columns := columns label_info;
     dimensions := Some d |}.

Record Layout : Type := {
  label_width : float;
  label_height : float;
  space_x : float;
  space_y : float
}.

(** Line 15. *)
Definition margins_in_points (m : Margins) : Margins :=
  {| top := top m * mm;
     bottom := bottom m * mm;
     left := left m * mm;
     right := right m * mm |}.

(** Lines 17 and 18. *)
Definition available_width (page_settings : PageSettings) : float :=
  fst (page_size page_settings)
  - (left (margins_in_points (margins page_settings))
     + right (margins_in_points (margins page_settings))).

Definition available_height (page_settings : PageSettings) : float :=
  snd (page_size page_settings)
  - (top (margins_in_points (margins page_settings))
     + bottom (margins_in_points (margins page_settings))).

(** Lines 13 to 34. *)
Definition calculate_layout (page_settings : PageSettings) : SE LabelInfo Layout :=
  let available_width := available_width page_settings in
  let available_height := available_height page_settings in
  label_info <- get ;;
  '(label_width, label_height) <-
    match dimensions label_info with
    | None =>
        label_width <- true_div_int available_width (columns label_info) ;;
        label_height <- true_div_int available_height (rows label_info) ;;
        width_mm <- true_div label_width mm ;;
        height_mm <- true_div label_height mm ;;
        modify (set_dimensions (width_mm, height_mm)) ;;
        ret (label_width, label_height)
    | Some (label_width, label_height) =>
        ret (label_width * mm, label_height * mm)
    end ;;
  width_of_row <- mul_int label_width (columns label_info) ;;
  space_between_labels_x <-
    true_div_int (available_width - width_of_row) (Z.max (columns label_info - 1) 1) ;;
  height_of_column <- mul_int label_height (rows label_info) ;;
  space_between_labels_y <-
    true_div_int (available_height - height_of_column) (Z.max (rows label_info - 1) 1) ;;
  if gtb label_width available_width || gtb label_height available_height
  then raise (ValueError too_large_msg)
  else ret {| label_width := label_width;
              label_height := label_height;
              space_x := space_between_labels_x;
              space_y := space_between_labels_y |}.

(** The cell size chosen by lines 20 to 27, as the program computes it. *)
Definition cell_size (page_settings : PageSettings) (label_info : LabelInfo)
  : float * float :=
  match dimensions label_info with
  | None =>
      (available_width page_settings / float_of_int (columns label_info),
       available_height page_settings / float_of_int (rows label_info))
  | Some (w, h) => (w * mm, h * mm)
  end.

(** The spacing of lines 29 and 30, as the program computes it. *)
Definition spacing (available size : float) (n : Z) : float :=
  (available - size * float_of_int n) / float_of_int (Z.max (n - 1) 1).

(** The dictionary after the call: the derived size, in millimetres,
    stored by line 23. *)
Definition label_info_after (page_settings : PageSettings) (label_info : LabelInfo)
  : LabelInfo :=
  match dimensions label_info with
  | None =>
      set_dimensions (fst (cell_size page_settings label_info) / mm,
                      snd (cell_size page_settings label_info) / mm) label_info
  | Some _ => label_info
  end.

(** The test of line 32. *)
Definition too_large (page_settings : PageSettings) (label_info : LabelInfo) : bool :=
  gtb (fst (cell_size page_settings label_info)) (available_width page_settings)
  || gtb (snd (cell_size page_settings label_info)) (available_height page_settings).

(** The dictionary of line 34. *)
Definition layout_of (page_settings : PageSettings) (label_info : LabelInfo) : Layout :=
  {| label_width := fst (cell_size page_settings label_info);
     label_height := snd (cell_size page_settings label_info);
     space_x := spacing (available_width page_settings)
                  (fst (cell_size page_settings label_info)) (columns label_info);
     space_y := spacing (available_height page_settings)
                  (snd (cell_size page_settings label_info)) (rows label_info) |}.

(** Counts the program can compute with: at least one, and small enough
    to convert to a float. *)
Definition count_in_range (n : Z) : Prop := (1 <= n < float_max_int)%Z.

(** A float that is not NaN and carries the sign [s]. *)
Definition signed (s : bool) (x : spec_float) : Prop :=
  match x with
  | S754_zero s' | S754_infinity s' | S754_finite s' _ _ => s' = s
  | S754_nan => False
  end.

(** A float that is positive and finite. *)
Definition positive_finite (x : float) : Prop :=
  (0 <? x) = true /\ (x <? infinity) = true.

(** Concrete inputs. *)

Definition uniform_margins (m : float) : Margins :=
  {| top := m; bottom := m; left := m; right := m |}.

(** A4 with margins of 12 mm, three rows of one label. *)
Definition page_A4_12 : PageSettings :=
  {| page_size := A4; margins := uniform_margins 12 |}.

Definition label_3x1 : LabelInfo :=
  {| rows := 3; columns := 1; dimensions := None |}.

(** Two rows of two labels, no explicit size. *)
Definition label_2x2 : LabelInfo :=
  {| rows := 2; columns := 2; dimensions := None |}.

(** A custom page of 100 mm by 100 mm with margins of 10 mm, and one
    label of 80 mm by 80 mm: as large as the available area. *)
Definition page_100mm_10 : PageSettings :=
  {| page_size := (100 * mm, 100 * mm); margins := uniform_margins 10 |}.

Definition label_80x80 : LabelInfo :=
  {| rows := 1; columns := 1; dimensions := Some (80, 80) |}.

(** A page of 100 by 100 points without margins, and one row of two
    labels of 20 mm by 10 mm. *)
Definition page_100pt : PageSettings :=
  {| page_size := (100, 100); margins := uniform_margins 0 |}.

Definition label_1x2_20_10 : LabelInfo :=
  {| rows := 1; columns := 2; dimensions := Some (20, 10) |}.

(** A4 with margins of 10 mm, one label. *)
Definition page_A4_10 : PageSettings :=
  {| page_size := A4; margins := uniform_margins 10 |}.

Definition label_1x1 : LabelInfo :=
  {| rows := 1; columns := 1; dimensions := None |}.

(** A4 without margins, one row of very many columns. *)
Definition page_A4_0 : PageSettings :=
  {| page_size := A4; margins := uniform_margins 0 |}.

Definition label_1xN (n : Z) : LabelInfo :=
  {| rows := 1; columns := n; dimensions := None |}.

End Binary64.

(** ** The outside world

    Everything the program calls outside its own code: the reportlab
    canvas, the file system and the streamlit widgets that report to the
    user.  A run is the list of calls it made, oldest first.  Whether a
    call to the canvas or the file system returns or raises is not up to
    the program: [Env] fixes it, per call (the same call always fares the
    same), together with the Python library functions used by [main]. *)

Inductive Event : Type :=
| WriteUpload (name : string)
| NewCanvas (output_file : string) (pagesize : Q * Q)
| ImageReader (path : string)
| DrawImage (image : string) (x y width height : Q) (preserveAspectRatio : bool)
| Save (output_file : string)
| ReadFile (output_file : string)
| StSuccess (name : string)
| StDownloadButton (file_name : string) (data_of : string)
| StError (name : string) (e : exn)
| StErrorNoUpload.

Record Env : Type := {
  (** does this call to the canvas or the file system return? *)
  call_ok : Event -> bool;
  (** [float(s)]; [None] when it raises [ValueError] *)
  float_of_string : string -> option Q;
  (** the f-string of line 95, from the file name, the page size label
      and the quantity *)
  format_output_filename : string -> string -> Z -> string
}.

Definition IO (A : Type) : Type := list Event * result A.

Definition io_ret {A} (a : A) : IO A := ([], Ok a).

Definition io_raise {A} (e : exn) : IO A := ([], Raise e).

Definition io_bind {A B} (c : IO A) (k : A -> IO B) : IO B :=
  match c with
  | (t, Ok a) => (t ++ fst (k a), snd (k a))
  | (t, Raise e) => (t, Raise e)
  end.

(** [try: c  except Exception as e: handler e]. *)
Definition try_except {A} (c : IO A) (handler : exn -> IO A) : IO A :=
  match c with
  | (t, Ok a) => (t, Ok a)
  | (t, Raise e) => (t ++ fst (handler e), snd (handler e))
  end.

Declare Scope io_scope.
Delimit Scope io_scope with io.
Notation "x <- c ;; k" := (io_bind c (fun x => k))
  (at level 61, c at next level, right associativity) : io_scope.
Notation "c ;; k" := (io_bind c (fun _ => k))
  (at level 61, right associativity) : io_scope.

(** [for a in l: body a]. *)
Fixpoint for_each {A} (l : list A) (body : A -> IO unit) : IO unit :=
  match l with
  | [] => io_ret tt
  | a :: l' => io_bind (body a) (fun _ => for_each l' body)
  end.

(** A call to a streamlit reporting widget. *)
Definition ui (e : Event) : IO unit := ([e], Ok tt).

Definition op_name (e : Event) : string :=
  match e with
  | WriteUpload _ => "open"
  | NewCanvas _ _ => "Canvas"
  | ImageReader _ => "ImageReader"
  | DrawImage _ _ _ _ _ _ => "drawImage"
  | Save _ => "save"
  | ReadFile _ => "read"
  | _ => "st"
  end.

(** [label_file.name] of an uploaded file. *)
Record UploadedFile : Type := { name : string }.

(** The values the sidebar widgets hold when [main] reaches line 76;
    [page_size] is the size after lines 49 to 62 (already turned for
    landscape), [page_size_display] its label. *)
Record Widgets : Type := {
  w_page_size : Q * Q;
  page_size_display : string;
  w_orientation : Orientation;
  top_margin : Q;
  bottom_margin : Q;
  left_margin : Q;
  right_margin : Q;
  label_files : option (list UploadedFile);
  label_rows : Z;
  label_columns : Z;
  label_dimensions : string;
  process_button : bool
}.

(** [s.split('x')]. *)
Fixpoint split_x (s : string) : list string :=
  match s with
  | EmptyString => [EmptyString]
  | String c s' =>
      if Ascii.eqb c "x"%char then EmptyString :: split_x s'
      else match split_x s' with
           | [] => [String c EmptyString]
           | t :: ts => String c t :: ts
           end
  end.

Section Program.

Variable env : Env.

(** A call to the canvas or the file system. *)
Definition backend (e : Event) : IO unit :=
  ([e], if call_ok env e then Ok tt else Raise (BackendError (op_name e))).

Open Scope io_scope.

(** ** The grid renderer *)

(** Lines 41 to 43: one cell. *)
Definition draw_cell (page_settings : PageSettings) (layout : Layout)
    (label_image : string) (row col : Z) : IO unit :=
  let x := left (margins page_settings) * mm
           + inject_Z col * (label_width layout + space_x layout) in
  let y := snd (page_size page_settings)
           - (top (margins page_settings) * mm
              + inject_Z (row + 1) * label_height layout
              + inject_Z row * space_y layout) in
  backend (DrawImage label_image x y (label_width layout) (label_height layout) true).

(** Lines 36 to 45. *)
Definition create_pdf_labels (page_settings : PageSettings) (label_info : LabelInfo)
    (layout : Layout) (output_file : string) : IO string :=
  backend (NewCanvas output_file (page_size page_settings)) ;;
  backend (ImageReader (path label_info)) ;;
  for_each (range (rows label_info)) (fun row =>
    for_each (range (columns label_info)) (fun col =>
      draw_cell page_settings layout (path label_info) row col)) ;;
  backend (Save output_file) ;;
  io_ret output_file.

(** ** The batch loop of [main] *)

(** Line 88: [width, height = map(float, label_dimensions.split('x'))].
    Both ways to fail (a piece that is no number, a number of pieces
    other than two) raise [ValueError]. *)
Definition parse_dimensions (s : string) : IO (Q * Q) :=
  match map (float_of_string env) (split_x s) with
  | [Some width; Some height] => io_ret (width, height)
  | _ => io_raise (ValueError "label dimensions")
  end.

(** Running [calculate_layout] on the local dictionary [label_info]:
    the call touches nothing outside. *)
Definition call_calculate_layout (page_settings : PageSettings)
    (label_info : LabelInfo) : IO (LabelInfo * Layout) :=
  match calculate_layout page_settings label_info with
  | (label_info', Ok layout) => io_ret (label_info', layout)
  | (_, Raise e) => io_raise e
  end.

(** Lines 92 to 98: the body of the [try]. *)
Definition try_body (w : Widgets) (label_file : UploadedFile)
    (page_settings : PageSettings) (label_info : LabelInfo) : IO unit :=
  r <- call_calculate_layout page_settings label_info ;;
  let label_info := fst r in
  let layout := snd r in
  let quantity := (label_rows w * label_columns w)%Z in
  let output_filename :=
    format_output_filename env (name label_file) (page_size_display w) quantity in
  output_file <- create_pdf_labels page_settings label_info layout output_filename ;;
  ui (StSuccess (name label_file)) ;;
  backend (ReadFile output_file) ;;
  ui (StDownloadButton output_filename output_file).

(** Line 85. *)
Definition page_settings_of (w : Widgets) : PageSettings :=
  {| page_size := w_page_size w;
     margins := {| top := top_margin w; bottom := bottom_margin w;
                   left := left_margin w; right := right_margin w |};
     orientation := w_orientation w |}.

(** Line 86. *)
Definition label_info_of (w : Widgets) (label_file : UploadedFile) : LabelInfo :=
  {| path := name label_file; rows := label_rows w;
     columns := label_columns w; dimensions := None |}.

(** Lines 79 to 100: the body of the loop over the uploaded files.  The
    upload is written and the dimensions are parsed before the [try]. *)
Definition process_label_file (w : Widgets) (label_file : UploadedFile) : IO unit :=
  backend (WriteUpload (name label_file)) ;;
  let page_settings := page_settings_of w in
  let label_info := label_info_of w label_file in
  label_info <-
    (if String.eqb (label_dimensions w) EmptyString then io_ret label_info
     else d <- parse_dimensions (label_dimensions w) ;;
          io_ret (set_dimensions d label_info)) ;;
  try_except (try_body w label_file page_settings label_info)
             (fun e => ui (StError (name label_file) e)).

(** Lines 76 to 102. *)
Definition main (w : Widgets) : IO unit :=
  if process_button w then
    match label_files w with
    | Some files => for_each files (process_label_file w)
    | None => ui StErrorNoUpload
    end
  else io_ret tt.

Close Scope io_scope.

End Program.

(** ** Reading a run *)

Definition is_draw (e : Event) : bool :=
  match e with DrawImage _ _ _ _ _ _ => true | _ => false end.

Definition is_save (e : Event) : bool :=
  match e with Save _ => true | _ => false end.

(** The [drawImage] calls of a run, in order. *)
Definition draw_calls (t : list Event) : list Event := filter is_draw t.

(** How often the document was finalized in a run. *)
Definition count_saves (t : list Event) : nat := List.length (filter is_save t).

(** The call made for the cell at [(row, col)]: lines 41 to 43. *)
Definition cell_call (ps : PageSettings) (layout : Layout) (image : string)
    (row col : Z) : Event :=
  DrawImage image
    (left (margins ps) * mm + inject_Z col * (label_width layout + space_x layout))
    (snd (page_size ps)
     - (top (margins ps) * mm + inject_Z (row + 1) * label_height layout
        + inject_Z row * space_y layout))
    (label_width layout) (label_height layout) true.

(** The [drawImage] calls of the whole grid, row after row. *)
Definition grid_calls (ps : PageSettings) (li : LabelInfo) (layout : Layout) : list Event :=
  flat_map (fun row => map (cell_call ps layout (path li) row) (range (columns li)))
           (range (rows li)).

(** The two loops of lines 39 to 43 on their own. *)
Definition draw_grid (env : Env) (page_settings : PageSettings) (label_info : LabelInfo)
    (layout : Layout) : IO unit :=
  for_each (range (rows label_info)) (fun row =>
    for_each (range (columns label_info)) (fun col =>
      draw_cell env page_settings layout (path label_info) row col)).

(** A call that neither hands document bytes to the user nor reports a
    failure. *)
Definition quiet (e : Event) : bool :=
  match e with
  | StDownloadButton _ _ | StError _ _ | StErrorNoUpload => false
  | _ => true
  end.

(** What the handler of line 100 adds to a run. *)
Definition report (f : UploadedFile) (r : result unit) : list Event :=
  match r with
  | Ok _ => []
  | Raise e => [StError (name f) e]
  end.

(** The dictionary line 89 leaves: the explicit size added when the text
    field held one. *)
Definition label_info_with (d : option (Q * Q)) (label_info : LabelInfo) : LabelInfo :=
  match d with
  | None => label_info
  | Some d => set_dimensions d label_info
  end.

(** The text field is empty, or holds two numbers around one [x]. *)
Definition dimensions_read (env : Env) (w : Widgets) (d : option (Q * Q)) : Prop :=
  (label_dimensions w = EmptyString /\ d = None)
  \/ (label_dimensions w <> EmptyString /\
      exists wh, parse_dimensions env (label_dimensions w) = ([], Ok wh) /\ d = Some wh).

(** ** Concrete inputs used below *)

Definition mkMargins (t b l r : Q) : Margins :=
  {| top := t; bottom := b; left := l; right := r |}.

Definition mkLabel (r c : Z) (d : option (Q * Q)) : LabelInfo :=
  {| path := "label.png"; rows := r; columns := c; dimensions := d |}.

(** The same request with another column count. *)
Definition with_columns (c : Z) (li : LabelInfo) : LabelInfo :=
  {| path := path li; rows := rows li; columns := c; dimensions := dimensions li |}.

(** Two rows and two columns, no explicit size. *)
Definition label_2x2 : LabelInfo := mkLabel 2 2 None.

(** One row of two labels of 20 mm by 10 mm. *)
Definition label_1x2_20_10 : LabelInfo := mkLabel 1 2 (Some (20, 10)).

(** A single label, no explicit size. *)
Definition label_1x1 : LabelInfo := mkLabel 1 1 None.

(** A single label of 10 mm by 10 mm. *)
Definition label_1x1_10_10 : LabelInfo := mkLabel 1 1 (Some (10, 10)).

(** A page of 210 by 297 points whose four margins are 10 points each
    (127/36 mm, since one millimetre is 360/127 points). *)
Definition page_210_297 : PageSettings :=
  {| page_size := (210, 297);
     margins := mkMargins (127 # 36) (127 # 36) (127 # 36) (127 # 36);
     orientation := Portrait |}.

(** A page of 100 by 100 points without margins. *)
Definition page_100_100 : PageSettings :=
  {| page_size := (100, 100);
     margins := mkMargins 0 0 0 0;
     orientation := Portrait |}.

(** A page of 100 by 100 points whose left and right margins of 60 mm
    leave a negative width. *)
Definition page_negative_width : PageSettings :=
  {| page_size := (100, 100);
     margins := mkMargins 0 0 60 60;
     orientation := Portrait |}.


(** The layout of the 2 by 2 grid on that page. *)
Definition layout_95 : Layout :=
  {| label_width := 95; label_height := 277 # 2; space_x := 0; space_y := 0 |}.

(** A backend on which every call returns. *)
Definition env_all_ok : Env :=
  {| call_ok := fun _ => true;
     float_of_string := fun _ => None;
     format_output_filename := fun n _ _ => n |}.

(** A backend on which [drawImage] raises and every other call returns. *)
Definition env_draw_fails : Env :=
  {| call_ok := fun e => match e with DrawImage _ _ _ _ _ _ => false | _ => true end;
     float_of_string := fun _ => None;
     format_output_filename := fun n _ _ => n |}.

(** A backend that cannot read the image [b.png]. *)
Definition env_unreadable_b : Env :=
  {| call_ok := fun e =>
       match e with
       | ImageReader p => negb (String.eqb p "b.png")
       | _ => true
       end;
     float_of_string := fun _ => None;
     format_output_filename := fun n _ _ => (n ++ ".pdf")%string |}.

(** A batch of three uploads for the 2 by 2 grid on the page above. *)
Definition batch_of_three : Widgets :=
  {| w_page_size := (210, 297);
     page_size_display := "Custom";
     w_orientation := Portrait;
     top_margin := 127 # 36;
     bottom_margin := 127 # 36;
     left_margin := 127 # 36;
     right_margin := 127 # 36;
     label_files := Some [ {| name := "a.png" |}; {| name := "b.png" |};
                           {| name := "c.png" |} ];
     label_rows := 2;
     label_columns := 2;
     label_dimensions := "";
     process_button := true |}.

(** ** The sidebar: lines 49 to 62 *)

(** The options of the page size select box. *)
Inductive PageSizeChoice : Type := ChoiceA4 | ChoiceLetter | ChoiceLegal | ChoiceCustom.

(** [reportlab.lib.pagesizes.A4], in points. *)
Definition A4 : Q * Q := (210 * mm, 297 * mm).

(** [reportlab.lib.pagesizes.landscape]: the longer side first. *)
Definition reportlab_landscape (pagesize : Q * Q) : Q * Q :=
  let (a, b) := pagesize in
  if Qgtb b a then (b, a) else (a, b).

(** Lines 49 to 62: the page size handed on and its label, from the
    select box, the two custom number inputs (millimetres, read only for
    [Custom]) and the orientation radio button. *)
Definition select_page_size (page_size : PageSizeChoice) (width height : Z)
    (orientation : Orientation) : (Q * Q) * string :=
  let page_size_display :=
    match page_size with
    | ChoiceA4 => "A4"
    | ChoiceLetter => "Letter"
    | ChoiceLegal => "Legal"
    | ChoiceCustom => "Custom"
    end%string in
  let page_size :=
    match page_size with
    | ChoiceCustom => (inject_Z width * mm, inject_Z height * mm)
    | ChoiceA4 => A4
    | ChoiceLetter => ((17 # 2) * (127 # 5) * mm, 11 * (127 # 5) * mm)
    | ChoiceLegal => ((17 # 2) * (127 # 5) * mm, 14 * (127 # 5) * mm)
    end in
  (match orientation with
   | Landscape => reportlab_landscape page_size
   | Portrait => page_size
   end,
   page_size_display).

(** ** More ways to read a run *)

(** Does the text contain the letter [x]? *)
Fixpoint has_x (s : string) : bool :=
  match s with
  | EmptyString => false
  | String c s' => Ascii.eqb c "x"%char || has_x s'
  end.

(** The calls of one file of a batch when nothing fails. *)
Definition file_run (env : Env) (w : Widgets) (layout : Layout) (f : UploadedFile)
  : list Event :=
  let out := format_output_filename env (name f) (page_size_display w)
               (label_rows w * label_columns w) in
  WriteUpload (name f) :: NewCanvas out (w_page_size w) :: ImageReader (name f)
    :: grid_calls (page_settings_of w) (label_info_of w f) layout
    ++ [Save out; StSuccess (name f); ReadFile out; StDownloadButton out out].

(** A run in which no call was made after one that raised: either it
    returned and every call returned, or it raised and its last call is the
    one that raised. *)
Definition stops_at_first_failure {A} (env : Env) (c : IO A) : Prop :=
  match snd c with
  | Ok _ => Forall (fun e => call_ok env e = true) (fst c)
  | Raise e =>
      exists pre x, fst c = pre ++ [x]
                    /\ Forall (fun e => call_ok env e = true) pre
                    /\ call_ok env x = false
                    /\ e = BackendError (op_name x)
  end.

(** More concrete inputs. *)

(** The layout [calculate_layout] returns for the 2 by 2 grid on the
    page of 210 by 297 points, as computed. *)
Definition layout_2x2_derived : Layout :=
  Eval cbv in
    match snd (calculate_layout page_210_297 label_2x2) with
    | Ok layout => layout
    | Raise _ => layout_95
    end.

(** The batch above with a dimension field that holds no [x]. *)
Definition batch_bad_dimensions : Widgets :=
  {| w_page_size := (210, 297);
     page_size_display := "Custom";
     w_orientation := Portrait;
     top_margin := 127 # 36;
     bottom_margin := 127 # 36;
     left_margin := 127 # 36;
     right_margin := 127 # 36;
     label_files := Some [ {| name := "a.png" |}; {| name := "b.png" |};
                           {| name := "c.png" |} ];
     label_rows := 2;
     label_columns := 2;
     label_dimensions := "50";
     process_button := true |}.

(** Three labels of 100 mm by 10 mm in a row: each is wider than the
    available 190 points. *)
Definition batch_too_large : Widgets :=
  {| w_page_size := (210, 297);
     page_size_display := "Custom";
     w_orientation := Portrait;
     top_margin := 127 # 36;
     bottom_margin := 127 # 36;
     left_margin := 127 # 36;
     right_margin := 127 # 36;
     label_files := Some [ {| name := "a.png" |}; {| name := "b.png" |};
                           {| name := "c.png" |} ];
     label_rows := 1;
     label_columns := 3;
     label_dimensions := "100x10";
     process_button := true |}.

(** A backend whose [float] reads the two texts [100] and [10]. *)
Definition env_reads_100_10 : Env :=
  {| call_ok := fun _ => true;
     float_of_string := fun s =>
       if String.eqb s "100" then Some 100
       else if String.eqb s "10" then Some 10 else None;
     format_output_filename := fun n _ _ => (n ++ ".pdf")%string |}.

(** A backend that cannot write the upload [b.png]. *)
Definition env_upload_b_fails : Env :=
  {| call_ok := fun e =>
       match e with
       | WriteUpload n => negb (String.eqb n "b.png")
       | _ => true
       end;
     float_of_string := fun _ => None;
     format_output_filename := fun n _ _ => (n ++ ".pdf")%string |}.

(** A backend that cannot read a saved document back. *)
Definition env_read_fails : Env :=
  {| call_ok := fun e => match e with ReadFile _ => false | _ => true end;
     float_of_string := fun _ => None;
     format_output_filename := fun n _ _ => (n ++ ".pdf")%string |}.

(** * Properties of the layout calculator *)

Section LayoutFacts.

Lemma Qgtb_true (x y : Q) : Qgtb x y = true <-> y < x.
Proof.
  unfold Qgtb. rewrite negb_true_iff. split; intro H.
  - apply Qnot_le_lt. intro Hle. apply Qle_bool_iff in Hle. congruence.
  - destruct (Qle_bool x y) eqn:E; [| reflexivity].
    apply Qle_bool_iff in E. exfalso. apply (Qlt_not_le _ _ H E).
Qed.

Lemma Qgtb_false (x y : Q) : Qgtb x y = false <-> x <= y.
Proof.
  unfold Qgtb. rewrite negb_false_iff. apply Qle_bool_iff.
Qed.

Lemma true_div_ok {S} (x y : Q) (s : S) :
  ~ y == 0 -> true_div x y s = (s, Ok (x / y)).
Proof.
  intro Hy. unfold true_div.
  destruct (Qeq_bool y 0) eqn:E; [| reflexivity].
  apply Qeq_bool_iff in E. contradiction.
Qed.

Lemma true_div_zero {S} (x y : Q) (s : S) :
  y == 0 -> true_div x y s = (s, Raise ZeroDivisionError).
Proof.
  intro Hy. unfold true_div. apply Qeq_bool_iff in Hy. now rewrite Hy.
Qed.

Lemma inject_Z_nonzero (n : Z) : (n <> 0)%Z -> ~ inject_Z n == 0.
Proof.
  intros Hn H. apply Hn. unfold Qeq in H. simpl in H. lia.
Qed.

Lemma inject_Z_pos (n : Z) : (1 <= n)%Z -> 0 < inject_Z n.
Proof.
  intro Hn. unfold Qlt. simpl. lia.
Qed.

Lemma mm_pos : 0 < mm.
Proof. reflexivity. Qed.

Lemma mm_nonzero : ~ mm == 0.
Proof. discriminate. Qed.

(** The divisor of lines 29 and 30 is at least one, whatever the count. *)
Lemma spacing_divisor_ge_1 (n : Z) : (1 <= Z.max (n - 1) 1)%Z.
Proof. lia. Qed.

Lemma spacing_divisor_nonzero (n : Z) : ~ inject_Z (Z.max (n - 1) 1) == 0.
Proof. apply inject_Z_nonzero. lia. Qed.

End LayoutFacts.

(** What [calculate_layout] does once neither derived division fails. *)
Lemma calculate_layout_eq (ps : PageSettings) (li : LabelInfo) :
  (dimensions li = None -> columns li <> 0%Z /\ rows li <> 0%Z) ->
  calculate_layout ps li =
  (label_info_after ps li,
   if Qgtb (fst (cell_size ps li)) (available_width ps)
      || Qgtb (snd (cell_size ps li)) (available_height ps)
   then Raise (ValueError too_large_msg)
   else Ok {| label_width := fst (cell_size ps li);
              label_height := snd (cell_size ps li);
              space_x := spacing (available_width ps) (fst (cell_size ps li)) (columns li);
              space_y := spacing (available_height ps) (snd (cell_size ps li)) (rows li) |}).
Proof.
  intro Hnz.
  unfold calculate_layout, label_info_after, cell_size, spacing, bind, get.
  destruct (dimensions li) as [[w h] |] eqn:Hd.
  - unfold ret at 1.
    rewrite (true_div_ok _ _ _ (spacing_divisor_nonzero (columns li))).
    rewrite (true_div_ok _ _ _ (spacing_divisor_nonzero (rows li))).
    cbn [fst snd].
    destruct (Qgtb (w * mm) (available_width ps) || Qgtb (h * mm) (available_height ps));
      reflexivity.
  - destruct (Hnz eq_refl) as [Hc Hr].
    rewrite (true_div_ok _ _ _ (inject_Z_nonzero _ Hc)).
    rewrite (true_div_ok _ _ _ (inject_Z_nonzero _ Hr)).
    rewrite !(true_div_ok _ _ _ mm_nonzero).
    unfold modify, ret at 1.
    rewrite (true_div_ok _ _ _ (spacing_divisor_nonzero (columns li))).
    rewrite (true_div_ok _ _ _ (spacing_divisor_nonzero (rows li))).
    cbn [fst snd].
    match goal with |- context [if ?b then _ else _] => destruct b end; reflexivity.
Qed.

(** A zero count with no explicit size: line 21 or 22 divides by zero. *)
Lemma calculate_layout_zero_division (ps : PageSettings) (li : LabelInfo) :
  dimensions li = None -> (columns li = 0 \/ rows li = 0)%Z ->
  calculate_layout ps li = (li, Raise ZeroDivisionError).
Proof.
  intros Hd Hz.
  unfold calculate_layout, bind, get. rewrite Hd.
  destruct (Z.eq_dec (columns li) 0) as [Hc | Hc].
  - rewrite Hc. reflexivity.
  - rewrite (true_div_ok _ _ _ (inject_Z_nonzero _ Hc)).
    destruct Hz as [Hz | Hz]; [contradiction |].
    rewrite Hz. reflexivity.
Qed.


Section LayoutArithmetic.




Lemma derived_spacing_zero (a : Q) (n : Z) :
  (1 <= n)%Z -> spacing a (a / inject_Z n) n == 0.
Proof.
  intro Hn. unfold spacing. field.
  split; (apply spacing_divisor_nonzero || (apply inject_Z_nonzero; lia)).
Qed.

Lemma spacing_fills (a size : Q) (n : Z) :
  size * inject_Z n + spacing a size n * inject_Z (Z.max (n - 1) 1) == a.
Proof.
  unfold spacing. field. apply spacing_divisor_nonzero.
Qed.

Lemma spacing_nonneg_iff (a size : Q) (n : Z) :
  0 <= spacing a size n <-> size * inject_Z n <= a.
Proof.
  unfold spacing.
  assert (Hd : 0 < inject_Z (Z.max (n - 1) 1)) by (apply inject_Z_pos; lia).
  split; intro H.
  - pose proof (Qmult_le_compat_r _ _ _ H (Qlt_le_weak _ _ Hd)) as Hm.
    rewrite Qmult_0_l in Hm.
    assert (E : (a - size * inject_Z n) / inject_Z (Z.max (n - 1) 1)
                * inject_Z (Z.max (n - 1) 1) == a - size * inject_Z n)
      by (field; apply spacing_divisor_nonzero).
    rewrite E in Hm. lra.
  - apply Qle_shift_div_l; [exact Hd |]. lra.
Qed.

End LayoutArithmetic.

Lemma valid_request_eq (ps : PageSettings) (li : LabelInfo) :
  valid_request li ->
  calculate_layout ps li =
  (label_info_after ps li,
   if Qgtb (fst (cell_size ps li)) (available_width ps)
      || Qgtb (snd (cell_size ps li)) (available_height ps)
   then Raise (ValueError too_large_msg)
   else Ok {| label_width := fst (cell_size ps li);
              label_height := snd (cell_size ps li);
              space_x := spacing (available_width ps) (fst (cell_size ps li)) (columns li);
              space_y := spacing (available_height ps) (snd (cell_size ps li)) (rows li) |}).
Proof.
  intros [Hr Hc]. apply calculate_layout_eq. intros _. lia.
Qed.

(** Reading a returned layout off the equation above. *)
Lemma returned_layout (ps : PageSettings) (li : LabelInfo) (layout : Layout) :
  valid_request li ->
  snd (calculate_layout ps li) = Ok layout ->
  fst (cell_size ps li) <= available_width ps /\
  snd (cell_size ps li) <= available_height ps /\
  layout = {| label_width := fst (cell_size ps li);
              label_height := snd (cell_size ps li);
              space_x := spacing (available_width ps) (fst (cell_size ps li)) (columns li);
              space_y := spacing (available_height ps) (snd (cell_size ps li)) (rows li) |}.
Proof.
  intros Hv. rewrite (valid_request_eq ps li Hv). cbn [snd].
  destruct (Qgtb (fst (cell_size ps li)) (available_width ps)) eqn:Ew;
    [discriminate |].
  destruct (Qgtb (snd (cell_size ps li)) (available_height ps)) eqn:Eh;
    [discriminate |].
  cbn [orb]. intro H. injection H as <-.
  apply Qgtb_false in Ew. apply Qgtb_false in Eh. auto.
Qed.

Lemma layout_returned (ps : PageSettings) (li : LabelInfo) :
  valid_request li ->
  fst (cell_size ps li) <= available_width ps ->
  snd (cell_size ps li) <= available_height ps ->
  snd (calculate_layout ps li) =
  Ok {| label_width := fst (cell_size ps li);
        label_height := snd (cell_size ps li);
        space_x := spacing (available_width ps) (fst (cell_size ps li)) (columns li);
        space_y := spacing (available_height ps) (snd (cell_size ps li)) (rows li) |}.
Proof.
  intros Hv Hw Hh. rewrite (valid_request_eq ps li Hv). cbn [snd].
  apply Qgtb_false in Hw. apply Qgtb_false in Hh. now rewrite Hw, Hh.
Qed.



(** C5.  For a request with at least one row and one column, explicit
    size or not, no division of [calculate_layout] is by zero: the divisors
    [max (columns - 1) 1] and [max (rows - 1) 1] are at least one, the two
    spacing divisions return for every count, and the call never raises
    [ZeroDivisionError].  Every returned layout has
    [space_x = (available_width - label_width * columns) / max (columns - 1) 1]
    and [space_y] likewise.  A 1 by 1 grid with a derived size returns a
    layout whatever the sign of the available area, and a 1 by 1 grid can
    have a spacing other than zero. *)
Theorem spacing_formula_never_divides_by_zero (ps : PageSettings) (li : LabelInfo) :
  (1 <= rows li)%Z -> (1 <= columns li)%Z ->
  ((1 <= Z.max (columns li - 1) 1)%Z /\ (1 <= Z.max (rows li - 1) 1)%Z) /\
  (forall (x : Q) (n : Z) (s : LabelInfo),
     true_div x (inject_Z (Z.max (n - 1) 1)) s
     = (s, Ok (x / inject_Z (Z.max (n - 1) 1)))) /\
  snd (calculate_layout ps li) <> Raise ZeroDivisionError /\
  (forall layout, snd (calculate_layout ps li) = Ok layout ->
     space_x layout
       == (available_width ps - label_width layout * inject_Z (columns li))
          / inject_Z (Z.max (columns li - 1) 1) /\
     space_y layout
       == (available_height ps - label_height layout * inject_Z (rows li))
          / inject_Z (Z.max (rows li - 1) 1)) /\
  (rows li = 1%Z -> columns li = 1%Z -> dimensions li = None ->
   exists layout, snd (calculate_layout ps li) = Ok layout) /\
  (exists layout,
     snd (calculate_layout page_100_100 label_1x1_10_10) = Ok layout
     /\ ~ space_x layout == 0 /\ ~ space_y layout == 0).
Proof.
  intros Hr Hc.
  assert (Hv : valid_request li) by (split; assumption).
  split; [split; apply spacing_divisor_ge_1 |].
  split; [intros x n s; apply true_div_ok, spacing_divisor_nonzero |].
  split; [| split; [| split]].
  - rewrite (valid_request_eq ps li Hv). cbn [snd].
    match goal with |- context [if ?b then _ else _] => destruct b end; discriminate.
  - intros layout Hl.
    destruct (returned_layout ps li layout Hv Hl) as (_ & _ & ->).
    cbn [label_width label_height space_x space_y]. unfold spacing.
    split; reflexivity.
  - intros Hr1 Hc1 Hd. eexists. apply layout_returned; [exact Hv | |];
      unfold cell_size; rewrite Hd, ?Hr1, ?Hc1; cbn [fst snd];
      unfold Qdiv; change (/ inject_Z 1) with 1; rewrite Qmult_1_r; apply Qle_refl.
  - eexists. split; [vm_compute; reflexivity |].
    split; vm_compute; discriminate.
Qed.

Lemma spacing_formula_never_divides_by_zero_witness :
  ((1 <= rows label_1x1)%Z /\ (1 <= columns label_1x1)%Z)
  /\ snd (calculate_layout page_negative_width label_1x1)
     <> Raise ZeroDivisionError
  /\ exists layout,
       snd (calculate_layout page_negative_width label_1x1) = Ok layout.
Proof.
  assert (Hr : (1 <= rows label_1x1)%Z) by (simpl; lia).
  assert (Hc : (1 <= columns label_1x1)%Z) by (simpl; lia).
  split; [split; assumption |].
  destruct (spacing_formula_never_divides_by_zero page_negative_width
              label_1x1 Hr Hc) as (_ & _ & Hnz & _ & H11 & _).
  split; [exact Hnz |].
  apply H11; reflexivity.
Defined.

(** C6, as stated, fails: one row of two labels of 20 mm by 10 mm on a page
    of 100 by 100 points passes the single-cell check (56.7 <= 100) and is
    returned with a negative horizontal spacing. *)
Lemma returned_spacing_negative :
  exists layout,
    snd (calculate_layout page_100_100 label_1x2_20_10) = Ok layout
    /\ space_x layout < 0.
Proof.
  eexists. split; [vm_compute; reflexivity |]. reflexivity.
Qed.







(** * The layout calculator in binary64

    The facts below are about [Binary64.calculate_layout].  Those that
    hold for every input follow the control flow of the code or the sign
    of a rounded result, read off the specification of the binary64
    operations; the others are evaluations at a concrete input. *)

Module Binary64Facts.

Import PrimFloat SpecFloat FloatOps FloatAxioms FloatLemmas.
Import Binary64.
#[local] Set Warnings "-inexact-float".
#[local] Open Scope float_scope.

(** ** The sign of a rounded result *)

Lemma shr_1_nonneg (mrs : shr_record) : (0 <= shr_m mrs -> 0 <= shr_m (shr_1 mrs))%Z.
Proof.
  destruct mrs as [[| [p | p |] | p] r s]; cbn; lia.
Qed.

Lemma iter_pos_shr_1_nonneg (p : positive) :
  forall mrs, (0 <= shr_m mrs -> 0 <= shr_m (iter_pos shr_1 p mrs))%Z.
Proof.
  induction p as [p IH | p IH |]; intros mrs H; cbn [iter_pos].
  - apply IH, IH, shr_1_nonneg, H.
  - apply IH, IH, H.
  - apply shr_1_nonneg, H.
Qed.

Lemma shr_fexp_nonneg (m e : Z) (l : location) :
  (0 <= m -> 0 <= shr_m (fst (shr_fexp prec emax m e l)))%Z.
Proof.
  intro H. unfold shr_fexp, shr.
  assert (H0 : (0 <= shr_m (shr_record_of_loc m l))%Z)
    by (destruct l as [| []]; exact H).
  destruct (fexp prec emax (Zdigits2 m + e) - e)%Z; cbn [fst]; try exact H0.
  now apply iter_pos_shr_1_nonneg.
Qed.

Lemma round_nearest_even_nonneg (m : Z) (l : location) :
  (0 <= m -> 0 <= round_nearest_even m l)%Z.
Proof.
  intro H. destruct l as [| []]; cbn [round_nearest_even]; try lia.
  destruct (Z.even m); lia.
Qed.

(** Rounding a mantissa that is not negative gives zero, a finite number
    or an infinity of the sign asked for, never NaN. *)
Lemma binary_round_aux_signed (s : bool) (m e : Z) (l : location) :
  (0 <= m)%Z -> signed s (binary_round_aux prec emax s m e l).
Proof.
  intro H. unfold binary_round_aux.
  pose proof (shr_fexp_nonneg m e l H) as H1.
  destruct (shr_fexp prec emax m e l) as [mrs' e']. cbn [fst] in H1.
  pose proof (shr_fexp_nonneg _ e' loc_Exact
                (round_nearest_even_nonneg _ (loc_of_shr_record mrs') H1)) as H2.
  destruct (shr_fexp prec emax (round_nearest_even _ _) e' loc_Exact) as [mrs'' e''].
  cbn [fst] in H2.
  destruct (shr_m mrs'') as [| p | p]; [reflexivity | | lia].
  destruct (e'' <=? emax - prec)%Z; reflexivity.
Qed.

Lemma binary_round_signed (s : bool) (m : positive) (e : Z) :
  signed s (binary_round prec emax s m e).
Proof.
  unfold binary_round. destruct (shl_align _ _ _) as [mz ez].
  now apply binary_round_aux_signed.
Qed.

Lemma binary_normalize_signed (m e : Z) :
  (0 <= m)%Z -> signed false (binary_normalize prec emax m e false).
Proof.
  intro H. destruct m as [| p | p]; [reflexivity | | lia].
  apply binary_round_signed.
Qed.

Lemma SFldexp_signed (s : bool) (x : spec_float) (e : Z) :
  signed s x -> signed s (SFldexp prec emax x e).
Proof.
  destruct x as [s' | s' | | s' m e']; cbn [SFldexp signed]; try tauto.
  intros ->. apply binary_round_signed.
Qed.

Lemma SF2Prim_signed (x : spec_float) :
  signed false x -> signed false (Prim2SF (SF2Prim x)).
Proof.
  destruct x as [s | s | | s m e]; cbn [signed]; try tauto; intros ->.
  - reflexivity.
  - reflexivity.
  - cbn [SF2Prim]. rewrite Z_ldexp_spec. apply SFldexp_signed.
    rewrite of_uint63_spec. apply binary_normalize_signed.
    apply Uint63.to_Z_bounded.
Qed.

(** The float of an integer that is not negative is not negative. *)
Lemma float_of_int_signed (n : Z) :
  (0 <= n)%Z -> signed false (Prim2SF (float_of_int n)).
Proof.
  intro H. apply SF2Prim_signed. now apply binary_normalize_signed.
Qed.

(** [0 <= x] and [0 < x < inf] on floats, read on the specification. *)
Lemma nonneg_spec (x : float) :
  (0 <=? x) = true <->
  match Prim2SF x with
  | S754_zero _ => True
  | S754_infinity s | S754_finite s _ _ => s = false
  | S754_nan => False
  end.
Proof.
  rewrite leb_spec. change (Prim2SF 0) with (S754_zero false).
  destruct (Prim2SF x) as [s | [|] | | [|] m e]; cbn; intuition congruence.
Qed.

Lemma signed_nonneg (x : float) : signed false (Prim2SF x) -> (0 <=? x) = true.
Proof.
  intro H. apply nonneg_spec. destruct (Prim2SF x); cbn in *; tauto.
Qed.

Lemma positive_finite_spec (x : float) :
  (0 <? x) = true -> (x <? infinity) = true ->
  exists m e, Prim2SF x = S754_finite false m e.
Proof.
  rewrite !ltb_spec. change (Prim2SF 0) with (S754_zero false).
  change (Prim2SF infinity) with (S754_infinity false).
  destruct (Prim2SF x) as [s | [|] | | [|] m e]; cbn; try discriminate.
  intros _ _. now exists m, e.
Qed.

Lemma SFdiv_core_binary_nonneg (m1 m2 : positive) (e1 e2 : Z) :
  (0 <= fst (fst (SFdiv_core_binary prec emax (Z.pos m1) e1 (Z.pos m2) e2)))%Z.
Proof.
  unfold SFdiv_core_binary.
  set (s := (e1 - e2 - _)%Z).
  set (m' := match s with Z.pos _ => Z.shiftl (Z.pos m1) s | 0%Z => Z.pos m1 | Z.neg _ => 0%Z end).
  assert (Hm : (0 <= m')%Z).
  { subst m'. destruct s; try lia. apply Z.shiftl_nonneg. lia. }
  pose proof (Z.div_pos m' (Z.pos m2) Hm ltac:(lia)) as Hq.
  unfold Z.div in Hq.
  destruct (Z.div_eucl m' (Z.pos m2)) as [q r]. exact Hq.
Qed.

(** A positive finite float divided by a float of positive sign. *)
Lemma div_nonneg (x y : float) :
  (0 <? x) = true -> (x <? infinity) = true ->
  signed false (Prim2SF y) -> (0 <=? x / y) = true.
Proof.
  intros H0 Hinf Hy. destruct (positive_finite_spec x H0 Hinf) as (mx & ex & Ex).
  apply signed_nonneg. rewrite div_spec, Ex. unfold SF64div.
  destruct (Prim2SF y) as [s | s | | s my ey]; cbn [signed] in Hy; try tauto; subst s;
    cbn [SFdiv xorb]; try reflexivity.
  pose proof (SFdiv_core_binary_nonneg mx my ex ey) as Hq.
  destruct (SFdiv_core_binary prec emax (Z.pos mx) ex (Z.pos my) ey) as [[mz ez] lz].
  now apply binary_round_aux_signed.
Qed.

(** A float that is not negative, converted from millimetres. *)
Lemma mul_mm_nonneg (x : float) : (0 <=? x) = true -> (0 <=? x * mm) = true.
Proof.
  intro H. apply nonneg_spec in H. apply nonneg_spec.
  rewrite mul_spec. unfold SF64mul.
  change (Prim2SF mm) with (S754_finite false 6383054589973932 (-51)).
  destruct (Prim2SF x) as [s | s | | s m e]; cbn [SFmul]; try tauto.
  - subst s; reflexivity.
  - subst s. cbn [xorb].
    pose proof (binary_round_aux_signed false
                  (Z.pos (m * 6383054589973932)) (e + -51) loc_Exact ltac:(lia)) as Hs.
    destruct (binary_round_aux _ _ _ _ _ _); cbn [signed] in Hs; tauto.
Qed.

(** ** The calculator, by exit *)

Lemma to_float_in_range {S} (n : Z) (s : S) :
  (Z.abs n < float_max_int)%Z -> to_float n s = (s, Ok (float_of_int n)).
Proof.
  intro H. unfold to_float.
  destruct (Z.leb_spec float_max_int (Z.abs n)); [lia | reflexivity].
Qed.

Lemma true_div_int_in_range {S} (x : float) (n : Z) (s : S) :
  count_in_range n -> true_div_int x n s = (s, Ok (x / float_of_int n)).
Proof.
  intros [H1 H2]. unfold true_div_int, bind.
  rewrite to_float_in_range by lia.
  destruct (Z.eqb_spec n 0); [lia | reflexivity].
Qed.

Lemma mul_int_in_range {S} (x : float) (n : Z) (s : S) :
  count_in_range n -> mul_int x n s = (s, Ok (x * float_of_int n)).
Proof.
  intros [H1 H2]. unfold mul_int, bind. now rewrite to_float_in_range by lia.
Qed.

Lemma true_div_mm {S} (x : float) (s : S) : true_div x mm s = (s, Ok (x / mm)).
Proof. reflexivity. Qed.

Lemma spacing_divisor_in_range (n : Z) :
  count_in_range n -> count_in_range (Z.max (n - 1) 1).
Proof. unfold count_in_range. lia. Qed.

(** With counts in range, the call stores the derived size and ends at
    the test of line 32. *)
Lemma calculate_layout_binary64 (ps : PageSettings) (li : LabelInfo) :
  count_in_range (rows li) -> count_in_range (columns li) ->
  calculate_layout ps li
  = (label_info_after ps li,
     if too_large ps li then Raise (ValueError too_large_msg)
     else Ok (layout_of ps li)).
Proof.
  intros Hr Hc.
  pose proof (spacing_divisor_in_range _ Hr) as Hr'.
  pose proof (spacing_divisor_in_range _ Hc) as Hc'.
  unfold calculate_layout, label_info_after, too_large, layout_of, cell_size, spacing,
    bind, get.
  destruct (dimensions li) as [[w h] |] eqn:Hd.
  - unfold ret at 1.
    rewrite (mul_int_in_range _ _ _ Hc), (true_div_int_in_range _ _ _ Hc').
    rewrite (mul_int_in_range _ _ _ Hr), (true_div_int_in_range _ _ _ Hr').
    cbn [fst snd].
    match goal with |- context [if ?b then _ else _] => destruct b end; reflexivity.
  - rewrite (true_div_int_in_range _ _ _ Hc), (true_div_int_in_range _ _ _ Hr).
    rewrite !true_div_mm. unfold modify, ret at 1.
    rewrite (mul_int_in_range _ _ _ Hc), (true_div_int_in_range _ _ _ Hc').
    rewrite (mul_int_in_range _ _ _ Hr), (true_div_int_in_range _ _ _ Hr').
    cbn [fst snd].
    match goal with |- context [if ?b then _ else _] => destruct b end; reflexivity.
Qed.

(** Whatever the counts, a returned layout is the one of line 34 and
    passed the test of line 32. *)
Lemma returned_binary64 (ps : PageSettings) (li : LabelInfo) (layout : Layout) :
  snd (calculate_layout ps li) = Ok layout ->
  layout = layout_of ps li /\ too_large ps li = false.
Proof.
  unfold too_large, layout_of, cell_size, spacing.
  cbv beta iota zeta delta [calculate_layout bind get true_div_int mul_int to_float
                            true_div modify ret raise].
  destruct (dimensions li) as [[w h] |];
    repeat match goal with
           | |- context [if ?b then _ else _] => destruct b eqn:?; cbv beta iota zeta
           end;
    cbn [fst snd]; intro H; try discriminate H;
    injection H as <-; (split; [reflexivity | assumption]).
Qed.

(** ** The derived size *)




(** ** The only validation *)

(** C2.  For counts that are at least one and convert to a float,
    [calculate_layout] raises the too-large [ValueError] exactly when the
    width of the single cell, derived or explicit, exceeds the available
    width or its height exceeds the available height, compared as the
    program compares them, on its own binary64 values; it raises nothing
    else, and otherwise returns the layout of that cell.  Nothing else is
    checked: one row of two labels of 20 mm by 10 mm on a page of 100 by
    100 points is returned although two labels are wider than the page,
    with a negative horizontal spacing.  The comparison is on rounded
    values: on a page of 100 mm by 100 mm with margins of 10 mm a label
    typed as 80 mm by 80 mm is refused, because 80 mm in points is one
    unit in the last place above the available width. *)
Theorem too_large_iff_single_cell_exceeds (ps : PageSettings) (li : LabelInfo) :
  count_in_range (rows li) -> count_in_range (columns li) ->
  let w := fst (cell_size ps li) in
  let h := snd (cell_size ps li) in
  (snd (calculate_layout ps li) = Raise (ValueError too_large_msg)
   <-> gtb w (available_width ps) = true \/ gtb h (available_height ps) = true) /\
  (snd (calculate_layout ps li) = Ok (layout_of ps li)
   <-> gtb w (available_width ps) = false /\ gtb h (available_height ps) = false) /\
  (forall e, snd (calculate_layout ps li) = Raise e -> e = ValueError too_large_msg) /\
  (exists layout,
     snd (calculate_layout page_100pt label_1x2_20_10) = Ok layout /\
     gtb (label_width layout * 2) (available_width page_100pt) = true /\
     (space_x layout <? 0) = true) /\
  snd (calculate_layout page_100mm_10 label_80x80) = Raise (ValueError too_large_msg).
Proof.
  intros Hr Hc w h.
  rewrite (calculate_layout_binary64 ps li Hr Hc). cbn [snd].
  unfold too_large. fold w h.
  split; [| split; [| split; [| split]]].
  - destruct (gtb w (available_width ps)), (gtb h (available_height ps));
      cbn [orb]; split; intro H; auto; try discriminate H.
    destruct H; discriminate.
  - destruct (gtb w (available_width ps)), (gtb h (available_height ps));
      cbn [orb]; split; intro H; auto; try discriminate H;
      destruct H; discriminate.
  - intro e.
    destruct (gtb w (available_width ps) || gtb h (available_height ps));
      intro H; [now injection H as <- | discriminate H].
  - eexists. split; [vm_compute; reflexivity |].
    split; vm_compute; reflexivity.
  - vm_compute. reflexivity.
Qed.

Lemma too_large_iff_single_cell_exceeds_witness :
  (count_in_range (rows label_1x2_20_10) /\ count_in_range (columns label_1x2_20_10))
  /\ gtb (fst (cell_size page_100pt label_1x2_20_10)) (available_width page_100pt) = false
  /\ gtb (snd (cell_size page_100pt label_1x2_20_10)) (available_height page_100pt) = false
  /\ snd (calculate_layout page_100pt label_1x2_20_10)
     = Ok (layout_of page_100pt label_1x2_20_10).
Proof.
  assert (Hr : count_in_range (rows label_1x2_20_10))
    by (split; [simpl; lia | vm_compute; reflexivity]).
  assert (Hc : count_in_range (columns label_1x2_20_10))
    by (split; [simpl; lia | vm_compute; reflexivity]).
  assert (Ew : gtb (fst (cell_size page_100pt label_1x2_20_10))
                 (available_width page_100pt) = false) by (vm_compute; reflexivity).
  assert (Eh : gtb (snd (cell_size page_100pt label_1x2_20_10))
                 (available_height page_100pt) = false) by (vm_compute; reflexivity).
  split; [split; assumption |]. split; [exact Ew |]. split; [exact Eh |].
  destruct (too_large_iff_single_cell_exceeds page_100pt label_1x2_20_10 Hr Hc)
    as (_ & Hok & _).
  apply Hok. split; assumption.
Defined.

(** ** The signs of a returned layout *)

(** C6, amended.  For at least one row and one column, a returned layout
    has [label_width >= 0] and [label_height >= 0] when the size is
    explicit and not negative, and when it is derived on a page whose
    available width and height are positive and finite.  The spacings are
    not bounded below: they are negative for one row of two labels of
    20 mm by 10 mm on a page of 100 by 100 points, and also with a
    derived size, for three rows on A4 with margins of 12 mm. *)
Theorem returned_cell_not_negative (ps : PageSettings) (li : LabelInfo)
    (layout : Layout) :
  (1 <= rows li)%Z -> (1 <= columns li)%Z ->
  match dimensions li with
  | None => positive_finite (available_width ps)
            /\ positive_finite (available_height ps)
  | Some (w, h) => (0 <=? w) = true /\ (0 <=? h) = true
  end ->
  snd (calculate_layout ps li) = Ok layout ->
  ((0 <=? label_width layout) = true /\ (0 <=? label_height layout) = true) /\
  (exists l, snd (calculate_layout page_100pt label_1x2_20_10) = Ok l
             /\ (space_x l <? 0) = true) /\
  (exists l, snd (calculate_layout page_A4_12 label_3x1) = Ok l
             /\ (space_y l <? 0) = true).
Proof.
  intros Hr Hc Hd Hl. split; [| split].
  - destruct (returned_binary64 ps li layout Hl) as [-> _].
    unfold layout_of, cell_size. cbn [label_width label_height].
    destruct (dimensions li) as [[w h] |]; cbn [fst snd].
    + destruct Hd as [Hw Hh]. split; now apply mul_mm_nonneg.
    + destruct Hd as [[Hw Hw'] [Hh Hh']].
      split; apply div_nonneg; try assumption; apply float_of_int_signed; lia.
  - eexists. split; [vm_compute; reflexivity |]. vm_compute. reflexivity.
  - eexists. split; [vm_compute; reflexivity |]. vm_compute. reflexivity.
Qed.

Lemma returned_cell_not_negative_witness :
  ((1 <= rows label_3x1)%Z /\ (1 <= columns label_3x1)%Z
   /\ positive_finite (available_width page_A4_12)
   /\ positive_finite (available_height page_A4_12))
  /\ exists layout,
       snd (calculate_layout page_A4_12 label_3x1) = Ok layout
       /\ (0 <=? label_width layout) = true /\ (0 <=? label_height layout) = true.
Proof.
  assert (Hr : (1 <= rows label_3x1)%Z) by (simpl; lia).
  assert (Hc : (1 <= columns label_3x1)%Z) by (simpl; lia).
  assert (Hw : positive_finite (available_width page_A4_12))
    by (split; vm_compute; reflexivity).
  assert (Hh : positive_finite (available_height page_A4_12))
    by (split; vm_compute; reflexivity).
  split; [repeat split; try assumption; apply Hw || apply Hh |].
  eexists. split; [vm_compute; reflexivity |].
  match goal with
  | |- (0 <=? label_width ?l) = true /\ _ =>
      refine (proj1 (returned_cell_not_negative page_A4_12 label_3x1 l
                       Hr Hc (conj Hw Hh) _))
  end.
  vm_compute. reflexivity.
Defined.

(** ** The size written back *)

(** X2.  The size written back need not be accepted again.  After a call
    without explicit size, for counts that are at least one and convert to
    a float, the dictionary holds the derived size divided by [mm]; a
    second call on that dictionary takes the explicit branch, multiplies
    by [mm] again, leaves the dictionary as it is, and raises the
    too-large [ValueError] exactly when the size that went through
    millimetres and back exceeds the available extent.  It does on A4 with
    margins of 10 mm and one label: the first call returns a layout, the
    second one raises. *)
Theorem written_back_dimensions_can_be_refused (ps : PageSettings) (li : LabelInfo) :
  dimensions li = None ->
  count_in_range (rows li) -> count_in_range (columns li) ->
  let li' := fst (calculate_layout ps li) in
  let w := available_width ps / float_of_int (columns li) / mm * mm in
  let h := available_height ps / float_of_int (rows li) / mm * mm in
  (rows li' = rows li /\ columns li' = columns li /\
   dimensions li'
   = Some (available_width ps / float_of_int (columns li) / mm,
           available_height ps / float_of_int (rows li) / mm)) /\
  fst (calculate_layout ps li') = li' /\
  snd (calculate_layout ps li')
  = (if gtb w (available_width ps) || gtb h (available_height ps)
     then Raise (ValueError too_large_msg)
     else Ok {| label_width := w;
                label_height := h;
                space_x := spacing (available_width ps) w (columns li);
                space_y := spacing (available_height ps) h (rows li) |}) /\
  exists layout,
    snd (calculate_layout page_A4_10 label_1x1) = Ok layout /\
    snd (calculate_layout page_A4_10 (fst (calculate_layout page_A4_10 label_1x1)))
    = Raise (ValueError too_large_msg).
Proof.
  intros Hd Hr Hc li' w h.
  assert (E : li' = set_dimensions
                      (available_width ps / float_of_int (columns li) / mm,
                       available_height ps / float_of_int (rows li) / mm) li).
  { subst li'. rewrite (calculate_layout_binary64 ps li Hr Hc).
    unfold label_info_after, cell_size. rewrite Hd. reflexivity. }
  split; [rewrite E; repeat split |].
  rewrite (calculate_layout_binary64 ps li') by (rewrite E; assumption).
  unfold label_info_after, too_large, layout_of, cell_size.
  rewrite E. cbn [dimensions set_dimensions rows columns fst snd]. fold w h.
  split; [reflexivity |]. split; [reflexivity |].
  eexists. split; vm_compute; reflexivity.
Qed.

Lemma written_back_dimensions_can_be_refused_witness :
  (dimensions label_1x1 = None
   /\ count_in_range (rows label_1x1) /\ count_in_range (columns label_1x1))
  /\ dimensions (fst (calculate_layout page_A4_10 label_1x1))
     = Some (available_width page_A4_10 / 1 / mm, available_height page_A4_10 / 1 / mm)
  /\ gtb (available_height page_A4_10 / 1 / mm * mm) (available_height page_A4_10)
     = true.
Proof.
  assert (Hr : count_in_range (rows label_1x1))
    by (split; [simpl; lia | vm_compute; reflexivity]).
  assert (Hc : count_in_range (columns label_1x1))
    by (split; [simpl; lia | vm_compute; reflexivity]).
  split; [split; [reflexivity | split; assumption] |].
  destruct (written_back_dimensions_can_be_refused page_A4_10 label_1x1
              eq_refl Hr Hc) as [(_ & _ & Hdim) _].
  split; [rewrite Hdim; vm_compute; reflexivity | vm_compute; reflexivity].
Defined.

(** ** Counts beyond the floats *)

(** X17.  A count too large for a float.  When the column count, or the
    row count, is 2^1024 - 2^970 or more in magnitude, its conversion to
    a float fails and [calculate_layout] raises [OverflowError]: without
    explicit size at the division of line 21 or 22, the dictionary
    untouched, unless the other count is zero and the division by it
    comes first; with an explicit size at the product of line 29 or 30.
    The largest count below that bound still converts, to the largest
    finite float. *)
Theorem count_beyond_float_range (ps : PageSettings) (li : LabelInfo) :
  (float_max_int <= Z.abs (columns li) \/ float_max_int <= Z.abs (rows li))%Z ->
  (dimensions li = None -> columns li <> 0%Z ->
   calculate_layout ps li = (li, Raise OverflowError)) /\
  (dimensions li <> None ->
   calculate_layout ps li = (li, Raise OverflowError)) /\
  (float_of_int (float_max_int - 1) <? infinity) = true /\
  float_of_int float_max_int = infinity.
Proof.
  intro H.
  assert (Hover : forall n, (float_max_int <= Z.abs n)%Z ->
             (float_max_int <=? Z.abs n)%Z = true) by (intros n Hn; now apply Z.leb_le).
  assert (Hin : forall n, ~ (float_max_int <= Z.abs n)%Z ->
             (float_max_int <=? Z.abs n)%Z = false) by (intros n Hn; now apply Z.leb_gt; lia).
  assert (Hbig : (2 <= float_max_int)%Z) by (vm_compute; discriminate).
  split; [| split; [| split]].
  - intros Hd Hc0.
    unfold calculate_layout, bind, get, true_div_int, to_float. rewrite Hd.
    destruct (Z_le_dec float_max_int (Z.abs (columns li))) as [Hc | Hc].
    + rewrite (Hover _ Hc). reflexivity.
    + rewrite (Hin _ Hc). unfold ret at 1.
      destruct (Z.eqb_spec (columns li) 0) as [? | _]; [contradiction |].
      destruct H as [H | H]; [contradiction |].
      rewrite (Hover _ H). reflexivity.
  - intro Hd.
    unfold calculate_layout, bind, get, mul_int, true_div_int, to_float.
    destruct (dimensions li) as [[w h] |]; [| contradiction]. unfold ret at 1.
    destruct (Z_le_dec float_max_int (Z.abs (columns li))) as [Hc | Hc].
    + rewrite (Hover _ Hc). reflexivity.
    + rewrite (Hin _ Hc). unfold ret at 1 2.
      rewrite (Hin (Z.max (columns li - 1) 1)) by lia.
      destruct (Z.eqb_spec (Z.max (columns li - 1) 1) 0) as [? | _]; [lia |].
      unfold ret at 1.
      destruct H as [H | H]; [contradiction |].
      rewrite (Hover _ H). reflexivity.
  - vm_compute. reflexivity.
  - vm_compute. reflexivity.
Qed.

Lemma count_beyond_float_range_witness :
  (float_max_int <= Z.abs (columns (label_1xN (2 ^ 1024))))%Z
  /\ calculate_layout page_A4_0 (label_1xN (2 ^ 1024))
     = (label_1xN (2 ^ 1024), Raise OverflowError).
Proof.
  assert (H : (float_max_int <= Z.abs (columns (label_1xN (2 ^ 1024))))%Z)
    by (vm_compute; discriminate).
  split; [exact H |].
  destruct (count_beyond_float_range page_A4_0 (label_1xN (2 ^ 1024)) (or_introl H))
    as [Hnone _].
  apply Hnone; [reflexivity | vm_compute; discriminate].
Defined.

End Binary64Facts.

(** * Properties of the grid renderer *)

Section RunFacts.

Context {A : Type}.

(** A loop whose body always returns runs every iteration, in order. *)
Lemma for_each_returns (l : list A) (body : A -> IO unit) :
  (forall a, In a l -> snd (body a) = Ok tt) ->
  for_each l body = (flat_map (fun a => fst (body a)) l, Ok tt).
Proof.
  induction l as [| a l IH]; intro Hok; [reflexivity |].
  cbn [for_each flat_map]. unfold io_bind.
  destruct (body a) as [t r] eqn:Eb.
  assert (Hr : r = Ok tt)
    by (specialize (Hok a (or_introl eq_refl)); rewrite Eb in Hok; exact Hok).
  subst r. rewrite IH by (intros b Hb; apply Hok; now right).
  reflexivity.
Qed.

(** Whatever holds of every call of every iteration holds of the loop. *)
Lemma for_each_Forall (P : Event -> Prop) (l : list A) (body : A -> IO unit) :
  (forall a, Forall P (fst (body a))) -> Forall P (fst (for_each l body)).
Proof.
  intro Hb. induction l as [| a l IH]; [constructor |].
  cbn [for_each]. unfold io_bind. specialize (Hb a).
  destruct (body a) as [t [[] | e]]; cbn [fst] in *.
  - apply Forall_app. split; assumption.
  - assumption.
Qed.

End RunFacts.

Section GridFacts.

Context {A B : Type}.

(** Position [i * c + j] of a list of rows of [c] cells each. *)
Lemma nth_error_rows (g : A -> list B) (c : nat) (l : list A) :
  (forall a, List.length (g a) = c) ->
  forall i j, (j < c)%nat ->
  nth_error (flat_map g l) (i * c + j)
  = match nth_error l i with
    | Some a => nth_error (g a) j
    | None => None
    end.
Proof.
  intros Hlen. induction l as [| a l IH]; intros i j Hj.
  - destruct i; cbn [flat_map nth_error]; now destruct (_ + _)%nat.
  - destruct i as [| i]; cbn [flat_map nth_error].
    + rewrite nth_error_app1 by (rewrite Hlen; exact Hj). reflexivity.
    + rewrite nth_error_app2 by (rewrite Hlen; simpl; lia).
      rewrite Hlen.
      replace (S i * c + j - c)%nat with (i * c + j)%nat by (simpl; lia).
      now apply IH.
Qed.

Lemma length_rows (g : A -> list B) (c : nat) (l : list A) :
  (forall a, List.length (g a) = c) ->
  List.length (flat_map g l) = (List.length l * c)%nat.
Proof.
  intro Hlen. induction l as [| a l IH]; [reflexivity |].
  cbn [flat_map List.length]. rewrite length_app, Hlen, IH. simpl. lia.
Qed.

End GridFacts.

Lemma length_range (n : Z) : List.length (range n) = Z.to_nat n.
Proof. unfold range. now rewrite length_map, length_seq. Qed.

Lemma nth_error_range (n : Z) (i : nat) :
  (i < Z.to_nat n)%nat -> nth_error (range n) i = Some (Z.of_nat i).
Proof.
  intro Hi. unfold range. rewrite nth_error_map, nth_error_seq.
  apply Nat.ltb_lt in Hi. now rewrite Hi.
Qed.

Lemma filter_all {A} (p : A -> bool) (l : list A) :
  Forall (fun a => p a = true) l -> filter p l = l.
Proof.
  induction 1 as [| a l Ha _ IH]; [reflexivity |].
  cbn [filter]. now rewrite Ha, IH.
Qed.

Lemma filter_none {A} (p : A -> bool) (l : list A) :
  Forall (fun a => p a = false) l -> filter p l = [].
Proof.
  induction 1 as [| a l Ha _ IH]; [reflexivity |].
  cbn [filter]. now rewrite Ha, IH.
Qed.

Lemma draw_cell_call (env : Env) (ps : PageSettings) (layout : Layout)
    (image : string) (row col : Z) :
  fst (draw_cell env ps layout image row col) = [cell_call ps layout image row col].
Proof. reflexivity. Qed.

(** The loops only ever call [drawImage]. *)
Lemma draw_grid_draws (env : Env) (ps : PageSettings) (li : LabelInfo) (layout : Layout) :
  Forall (fun e => is_draw e = true) (fst (draw_grid env ps li layout)).
Proof.
  unfold draw_grid. apply for_each_Forall. intro row.
  apply for_each_Forall. intro col.
  rewrite draw_cell_call. now constructor.
Qed.

Lemma draw_grid_no_save (env : Env) (ps : PageSettings) (li : LabelInfo) (layout : Layout) :
  Forall (fun e => is_save e = false) (fst (draw_grid env ps li layout)).
Proof.
  eapply Forall_impl; [| apply draw_grid_draws].
  intros e He. now destruct e.
Qed.

(** When every [drawImage] returns, the loops draw the whole grid, row
    after row. *)
Lemma draw_grid_returns (env : Env) (ps : PageSettings) (li : LabelInfo) (layout : Layout) :
  (forall e, is_draw e = true -> call_ok env e = true) ->
  draw_grid env ps li layout
  = (flat_map (fun row => map (cell_call ps layout (path li) row) (range (columns li)))
              (range (rows li)),
     Ok tt).
Proof.
  intro Hok.
  assert (Hcell : forall row col,
             draw_cell env ps layout (path li) row col
             = ([cell_call ps layout (path li) row col], Ok tt)).
  { intros row col. unfold draw_cell, backend.
    fold (cell_call ps layout (path li) row col).
    now rewrite Hok. }
  assert (Hrow : forall row,
             for_each (range (columns li))
               (fun col => draw_cell env ps layout (path li) row col)
             = (map (cell_call ps layout (path li) row) (range (columns li)), Ok tt)).
  { intro row. rewrite for_each_returns by (intros; now rewrite Hcell).
    f_equal. }
  unfold draw_grid. rewrite for_each_returns by (intros; now rewrite Hrow).
  f_equal. apply flat_map_ext. intro row. now rewrite Hrow.
Qed.

(** The exits of [create_pdf_labels], one by one. *)
Lemma create_pdf_labels_exits (env : Env) (ps : PageSettings) (li : LabelInfo)
    (layout : Layout) (out : string) :
  create_pdf_labels env ps li layout out
  = if negb (call_ok env (NewCanvas out (page_size ps)))
    then ([NewCanvas out (page_size ps)], Raise (BackendError "Canvas"))
    else if negb (call_ok env (ImageReader (path li)))
    then ([NewCanvas out (page_size ps); ImageReader (path li)],
          Raise (BackendError "ImageReader"))
    else match snd (draw_grid env ps li layout) with
         | Raise e =>
             (NewCanvas out (page_size ps) :: ImageReader (path li)
                :: fst (draw_grid env ps li layout), Raise e)
         | Ok _ =>
             (NewCanvas out (page_size ps) :: ImageReader (path li)
                :: fst (draw_grid env ps li layout) ++ [Save out],
              if call_ok env (Save out) then Ok out
              else Raise (BackendError "save"))
         end.
Proof.
  unfold create_pdf_labels. fold (draw_grid env ps li layout).
  unfold io_bind, backend, io_ret.
  destruct (call_ok env (NewCanvas out (page_size ps))); [| reflexivity].
  destruct (call_ok env (ImageReader (path li))); [| reflexivity].
  destruct (draw_grid env ps li layout) as [t [[] | e]]; [| reflexivity].
  destruct (call_ok env (Save out)); reflexivity.
Qed.

(** The run of [create_pdf_labels] on a backend whose calls return. *)
Lemma create_pdf_labels_returns (env : Env) (ps : PageSettings) (li : LabelInfo)
    (layout : Layout) (out : string) :
  (forall e, call_ok env e = true) ->
  create_pdf_labels env ps li layout out
  = (NewCanvas out (page_size ps) :: ImageReader (path li)
       :: grid_calls ps li layout ++ [Save out], Ok out).
Proof.
  intro Hok.
  rewrite create_pdf_labels_exits, !Hok. cbn [negb].
  rewrite (draw_grid_returns env ps li layout) by (intros; apply Hok).
  reflexivity.
Qed.

Lemma draw_calls_of_run (ps : PageSettings) (li : LabelInfo) (layout : Layout)
    (out : string) :
  draw_calls (NewCanvas out (page_size ps) :: ImageReader (path li)
                :: grid_calls ps li layout ++ [Save out])
  = grid_calls ps li layout.
Proof.
  unfold draw_calls. cbn [filter is_draw]. rewrite filter_app.
  rewrite filter_all.
  - cbn [filter is_draw]. apply app_nil_r.
  - unfold grid_calls. apply Forall_flat_map, Forall_forall. intros row _.
    apply Forall_map, Forall_forall. intros col _. reflexivity.
Qed.

Lemma length_grid_calls (ps : PageSettings) (li : LabelInfo) (layout : Layout) :
  (0 <= rows li)%Z -> (0 <= columns li)%Z ->
  List.length (grid_calls ps li layout) = Z.to_nat (rows li * columns li).
Proof.
  intros Hr Hc. unfold grid_calls.
  rewrite (length_rows _ (Z.to_nat (columns li)))
    by (intro; now rewrite length_map, length_range).
  rewrite length_range. now rewrite Z2Nat.inj_mul.
Qed.

Lemma grid_call_at (ps : PageSettings) (li : LabelInfo) (layout : Layout) (row col : Z) :
  (0 <= row < rows li)%Z -> (0 <= col < columns li)%Z ->
  nth_error (grid_calls ps li layout) (Z.to_nat (row * columns li + col))
  = Some (cell_call ps layout (path li) row col).
Proof.
  intros Hrow Hcol. unfold grid_calls.
  replace (Z.to_nat (row * columns li + col))
    with (Z.to_nat row * Z.to_nat (columns li) + Z.to_nat col)%nat by nia.
  rewrite (nth_error_rows _ (Z.to_nat (columns li)))
    by (try lia; intro; now rewrite length_map, length_range).
  rewrite nth_error_range by lia.
  rewrite nth_error_map, nth_error_range by lia.
  cbn [option_map]. rewrite !Z2Nat.id by lia. reflexivity.
Qed.

Section LoopPrefix.

Context {A : Type}.

(** A loop whose iterations each log a prefix of what they would log if
    they returned logs a prefix of the whole, and the whole if it returns. *)
Lemma for_each_prefix (l : list A) (body : A -> IO unit) (full : A -> list Event) :
  (forall a, exists k, fst (body a) = firstn k (full a)) ->
  (forall a, snd (body a) = Ok tt -> fst (body a) = full a) ->
  (exists k, fst (for_each l body) = firstn k (flat_map full l)) /\
  (snd (for_each l body) = Ok tt -> fst (for_each l body) = flat_map full l).
Proof.
  intros Hpre Hfull. induction l as [| a l [[k IHk] IHok]].
  - split; [now exists 0%nat | reflexivity].
  - cbn [for_each flat_map]. unfold io_bind.
    specialize (Hfull a). destruct (Hpre a) as [ka Hka].
    destruct (body a) as [t [[] | e]]; cbn [fst snd] in *.
    + rewrite (Hfull eq_refl). split.
      * exists (List.length (full a) + k)%nat. now rewrite firstn_app_2, IHk.
      * intro Hok. now rewrite (IHok Hok).
    + split; [| discriminate].
      exists (Nat.min ka (List.length (full a))).
      rewrite firstn_app.
      replace (Nat.min ka (List.length (full a)) - List.length (full a))%nat
        with 0%nat by lia.
      cbn [firstn]. rewrite app_nil_r, Hka.
      destruct (Nat.le_ge_cases ka (List.length (full a))) as [Hle | Hge].
      * now rewrite Nat.min_l.
      * rewrite Nat.min_r by exact Hge. rewrite firstn_all. now apply firstn_all2.
Qed.

End LoopPrefix.

(** The loops draw the grid in row-major order for as long as [drawImage]
    returns. *)
Lemma draw_grid_prefix (env : Env) (ps : PageSettings) (li : LabelInfo) (layout : Layout) :
  (exists k, fst (draw_grid env ps li layout) = firstn k (grid_calls ps li layout)) /\
  (snd (draw_grid env ps li layout) = Ok tt ->
   fst (draw_grid env ps li layout) = grid_calls ps li layout).
Proof.
  unfold draw_grid, grid_calls.
  assert (Hrow : forall row,
             (exists k,
                 fst (for_each (range (columns li))
                        (fun col => draw_cell env ps layout (path li) row col))
                 = firstn k (map (cell_call ps layout (path li) row) (range (columns li))))
             /\ (snd (for_each (range (columns li))
                        (fun col => draw_cell env ps layout (path li) row col)) = Ok tt ->
                 fst (for_each (range (columns li))
                        (fun col => draw_cell env ps layout (path li) row col))
                 = map (cell_call ps layout (path li) row) (range (columns li)))).
  { intro row.
    replace (map (cell_call ps layout (path li) row) (range (columns li)))
      with (flat_map (fun col => [cell_call ps layout (path li) row col])
              (range (columns li)))
      by (induction (range (columns li)) as [| c l IH];
          [reflexivity | cbn [flat_map map app]; now rewrite IH]).
    apply for_each_prefix.
    - intro col. now exists 1%nat.
    - reflexivity. }
  apply for_each_prefix; intro row; apply Hrow.
Qed.

(** The [drawImage] calls of any run of [create_pdf_labels] are a prefix
    of the grid, and the whole grid when the run returns. *)
Lemma create_pdf_labels_draws (env : Env) (ps : PageSettings) (li : LabelInfo)
    (layout : Layout) (out : string) :
  (exists k, draw_calls (fst (create_pdf_labels env ps li layout out))
             = firstn k (grid_calls ps li layout)) /\
  (forall f, snd (create_pdf_labels env ps li layout out) = Ok f ->
   draw_calls (fst (create_pdf_labels env ps li layout out)) = grid_calls ps li layout).
Proof.
  rewrite create_pdf_labels_exits.
  destruct (call_ok env (NewCanvas out (page_size ps))); cbn [negb];
    [| split; [now exists 0%nat | discriminate]].
  destruct (call_ok env (ImageReader (path li))); cbn [negb];
    [| split; [now exists 0%nat | discriminate]].
  pose proof (draw_grid_draws env ps li layout) as Hdraws.
  destruct (draw_grid_prefix env ps li layout) as [[k Hk] Hok].
  destruct (draw_grid env ps li layout) as [t [[] | e]]; cbn [fst snd] in *.
  - assert (E : draw_calls (NewCanvas out (page_size ps) :: ImageReader (path li)
                              :: t ++ [Save out]) = t).
    { unfold draw_calls. cbn [filter is_draw].
      rewrite filter_app, (filter_all _ _ Hdraws). apply app_nil_r. }
    rewrite E, (Hok eq_refl). split; [| reflexivity].
    exists (List.length (grid_calls ps li layout)). now rewrite firstn_all.
  - assert (E : draw_calls (NewCanvas out (page_size ps) :: ImageReader (path li) :: t)
                = t).
    { unfold draw_calls. cbn [filter is_draw]. apply (filter_all _ _ Hdraws). }
    rewrite E. split; [now exists k | discriminate].
Qed.

(** C3.  With at least one row and one column, the [drawImage] calls of
    [create_pdf_labels] follow the grid in row-major order, row 0 first:
    on any backend they are a prefix of that sequence (drawing stops at a
    call that raises); on a backend whose calls return the function
    returns; and whenever it returns there are exactly [rows * columns]
    calls, the one at position [row * columns + col] drawing the image at
    [x = left * mm + col * (label_width + space_x)] and
    [y = page height - (top * mm + (row + 1) * label_height + row * space_y)]
    with width [label_width], height [label_height] and
    [preserveAspectRatio=True]. *)
Theorem grid_drawn_row_major (env : Env) (ps : PageSettings) (li : LabelInfo)
    (layout : Layout) (out : string) :
  (1 <= rows li)%Z -> (1 <= columns li)%Z ->
  let run := create_pdf_labels env ps li layout out in
  let cell := fun row col =>
    DrawImage (path li)
      (left (margins ps) * mm + inject_Z col * (label_width layout + space_x layout))
      (snd (page_size ps)
       - (top (margins ps) * mm + inject_Z (row + 1) * label_height layout
          + inject_Z row * space_y layout))
      (label_width layout) (label_height layout) true in
  (exists k,
      draw_calls (fst run)
      = firstn k (flat_map (fun row => map (cell row) (range (columns li)))
                           (range (rows li)))) /\
  ((forall e, call_ok env e = true) -> snd run = Ok out) /\
  (snd run = Ok out ->
   draw_calls (fst run)
   = flat_map (fun row => map (cell row) (range (columns li))) (range (rows li)) /\
   List.length (draw_calls (fst run)) = Z.to_nat (rows li * columns li) /\
   (forall row col, (0 <= row < rows li)%Z -> (0 <= col < columns li)%Z ->
      nth_error (draw_calls (fst run)) (Z.to_nat (row * columns li + col))
      = Some (cell row col))).
Proof.
  intros Hr Hc run cell. subst run.
  destruct (create_pdf_labels_draws env ps li layout out) as [Hpre Hall].
  split; [exact Hpre |]. split.
  - intro Hok. now rewrite (create_pdf_labels_returns env ps li layout out Hok).
  - intro Hret. rewrite (Hall out Hret).
    split; [reflexivity |]. split.
    + apply length_grid_calls; lia.
    + intros row col Hrow Hcol. now apply grid_call_at.
Qed.

Lemma grid_drawn_row_major_witness :
  ((1 <= rows label_2x2)%Z /\ (1 <= columns label_2x2)%Z
   /\ forall e, call_ok env_all_ok e = true)
  /\ List.length
       (draw_calls (fst (create_pdf_labels env_all_ok page_210_297 label_2x2
                           layout_95 "label-a4-4.pdf")))
     = 4%nat.
Proof.
  assert (Hr : (1 <= rows label_2x2)%Z) by (simpl; lia).
  assert (Hc : (1 <= columns label_2x2)%Z) by (simpl; lia).
  assert (Hok : forall e, call_ok env_all_ok e = true) by reflexivity.
  split; [repeat split; assumption |].
  destruct (grid_drawn_row_major env_all_ok page_210_297 label_2x2 layout_95
              "label-a4-4.pdf" Hr Hc) as (_ & Hret & Hgrid).
  destruct (Hgrid (Hret Hok)) as (_ & Hlen & _).
  rewrite Hlen. reflexivity.
Defined.

(** C4.  On the page of 210 by 297 points with margins of 10 points
    (available area 190 by 277) a request for 2 rows and 2 columns without
    explicit size gets [label_width = 95], [label_height = 138.5] and no
    spacing, and a rendering of that layout that returns has drawn the cell
    of row 0, column 0 at [x = 10], the cell of row 0, column 1 at
    [x = 105] and the cell of row 1, column 0 at [y = 10]. *)
Theorem example_210_297 (env : Env) (out : string) :
  available_width page_210_297 == 190 /\ available_height page_210_297 == 277 /\
  exists layout,
    snd (calculate_layout page_210_297 label_2x2) = Ok layout /\
    label_width layout == 95 /\ label_height layout == 277 # 2 /\
    space_x layout == 0 /\ space_y layout == 0 /\
    let run :=
      create_pdf_labels env page_210_297
        (fst (calculate_layout page_210_297 label_2x2)) layout out in
    ((forall e, call_ok env e = true) -> snd run = Ok out) /\
    (snd run = Ok out ->
     (exists x y w h,
         nth_error (draw_calls (fst run)) (Z.to_nat (0 * 2 + 0))
         = Some (DrawImage "label.png" x y w h true) /\ x == 10) /\
     (exists x y w h,
         nth_error (draw_calls (fst run)) (Z.to_nat (0 * 2 + 1))
         = Some (DrawImage "label.png" x y w h true) /\ x == 105) /\
     (exists x y w h,
         nth_error (draw_calls (fst run)) (Z.to_nat (1 * 2 + 0))
         = Some (DrawImage "label.png" x y w h true) /\ y == 10)).
Proof.
  split; [reflexivity |]. split; [reflexivity |].
  assert (Hv : valid_request label_2x2) by (split; simpl; lia).
  rewrite (valid_request_eq page_210_297 label_2x2 Hv). cbn [fst snd].
  replace (Qgtb (fst (cell_size page_210_297 label_2x2)) (available_width page_210_297)
           || Qgtb (snd (cell_size page_210_297 label_2x2))
                (available_height page_210_297)) with false by reflexivity.
  eexists. split; [reflexivity |].
  cbn [label_width label_height space_x space_y].
  split; [reflexivity |]. split; [reflexivity |].
  split; [reflexivity |]. split; [reflexivity |].
  cbv zeta. split.
  - intro Hok. now rewrite (create_pdf_labels_returns env _ _ _ out Hok).
  - intro Hret.
    match type of Hret with
    | snd (create_pdf_labels _ ?ps ?li ?l _) = _ =>
        destruct (create_pdf_labels_draws env ps li l out) as [_ Hall]
    end.
    rewrite (Hall out Hret).
    repeat split; do 4 eexists;
      (split; [apply grid_call_at; simpl; lia | reflexivity]).
Qed.

Lemma example_210_297_witness :
  snd (create_pdf_labels env_all_ok page_210_297
         (fst (calculate_layout page_210_297 label_2x2)) layout_95 "label-custom-4.pdf")
  = Ok "label-custom-4.pdf"%string
  /\ exists layout,
       snd (calculate_layout page_210_297 label_2x2) = Ok layout
       /\ label_width layout == 95 /\ label_height layout == 277 # 2
       /\ exists x y w h,
            nth_error
              (draw_calls
                 (fst (create_pdf_labels env_all_ok page_210_297
                         (fst (calculate_layout page_210_297 label_2x2)) layout
                         "label-custom-4.pdf")))
              1
            = Some (DrawImage "label.png" x y w h true) /\ x == 105.
Proof.
  split; [reflexivity |].
  destruct (example_210_297 env_all_ok "label-custom-4.pdf")
    as (_ & _ & layout & Hl & Hw & Hh & _ & _ & Hret & Hdraw).
  exists layout. repeat split; try assumption.
  destruct (Hdraw (Hret (fun _ => eq_refl))) as (_ & H01 & _).
  exact H01.
Defined.

(** * Finalization and the failure boundary *)

Lemma count_saves_app (t1 t2 : list Event) :
  count_saves (t1 ++ t2) = (count_saves t1 + count_saves t2)%nat.
Proof. unfold count_saves. now rewrite filter_app, length_app. Qed.

Lemma count_saves_none (t : list Event) :
  Forall (fun e => is_save e = false) t -> count_saves t = 0%nat.
Proof. intro H. unfold count_saves. now rewrite (filter_none _ _ H). Qed.

Lemma draw_grid_quiet (env : Env) (ps : PageSettings) (li : LabelInfo) (layout : Layout) :
  Forall (fun e => quiet e = true /\ is_save e = false) (fst (draw_grid env ps li layout)).
Proof.
  eapply Forall_impl; [| apply draw_grid_draws].
  intros e He. now destruct e.
Qed.

(** What a run of [create_pdf_labels] looks like, by exit: it returns after
    one successful [save], its last call; or it raises, after a failed
    [save] as last call or without any [save]. *)
Lemma create_pdf_labels_shape (env : Env) (ps : PageSettings) (li : LabelInfo)
    (layout : Layout) (out : string) :
  exists body,
    Forall (fun e => quiet e = true /\ is_save e = false) body /\
    ((create_pdf_labels env ps li layout out = (body ++ [Save out], Ok out)
      /\ call_ok env (Save out) = true)
     \/ (create_pdf_labels env ps li layout out
         = (body ++ [Save out], Raise (BackendError "save"))
         /\ call_ok env (Save out) = false)
     \/ (exists e, create_pdf_labels env ps li layout out = (body, Raise e)
                   /\ (snd (draw_grid env ps li layout) = Ok tt ->
                       call_ok env (NewCanvas out (page_size ps)) = false
                       \/ call_ok env (ImageReader (path li)) = false))).
Proof.
  rewrite create_pdf_labels_exits.
  pose proof (draw_grid_quiet env ps li layout) as Hgrid.
  destruct (call_ok env (NewCanvas out (page_size ps))) eqn:Ec; cbn [negb].
  2:{ exists [NewCanvas out (page_size ps)]. split; [repeat constructor |].
      right. right. eexists. split; [reflexivity | auto]. }
  destruct (call_ok env (ImageReader (path li))) eqn:Ei; cbn [negb].
  2:{ exists [NewCanvas out (page_size ps); ImageReader (path li)].
      split; [repeat constructor |].
      right. right. eexists. split; [reflexivity | auto]. }
  destruct (draw_grid env ps li layout) as [t [[] | e]]; cbn [fst snd] in *.
  - exists (NewCanvas out (page_size ps) :: ImageReader (path li) :: t).
    split; [repeat constructor; exact Hgrid |].
    destruct (call_ok env (Save out)); [left | right; left]; split; reflexivity.
  - exists (NewCanvas out (page_size ps) :: ImageReader (path li) :: t).
    split; [repeat constructor; exact Hgrid |].
    right. right. exists e. split; [reflexivity | discriminate].
Qed.

(** C8, as stated, fails: when [drawImage] raises, [create_pdf_labels]
    raises without ever calling [save]. *)
Lemma failed_draw_never_saved :
  snd (create_pdf_labels env_draw_fails page_210_297 label_2x2 layout_95 "label-a4-4.pdf")
  = Raise (BackendError "drawImage")
  /\ count_saves
       (fst (create_pdf_labels env_draw_fails page_210_297 label_2x2 layout_95
               "label-a4-4.pdf"))
     = 0%nat.
Proof. split; reflexivity. Qed.

Lemma quiet_no_save (t : list Event) :
  Forall (fun e => quiet e = true /\ is_save e = false) t ->
  Forall (fun e => quiet e = true) t /\ count_saves t = 0%nat.
Proof.
  intro H. split.
  - eapply Forall_impl; [| exact H]. now intros e [Hq _].
  - apply count_saves_none. eapply Forall_impl; [| exact H]. now intros e [_ Hs].
Qed.

(** The body of the [try], exit by exit. *)
Lemma try_body_exits (env : Env) (w : Widgets) (f : UploadedFile)
    (ps : PageSettings) (li : LabelInfo) :
  try_body env w f ps li
  = match calculate_layout ps li with
    | (_, Raise e) => ([], Raise e)
    | (li', Ok layout) =>
        let output_filename :=
          format_output_filename env (name f) (page_size_display w)
            (label_rows w * label_columns w) in
        match create_pdf_labels env ps li' layout output_filename with
        | (t, Raise e) => (t, Raise e)
        | (t, Ok output_file) =>
            if call_ok env (ReadFile output_file)
            then (t ++ [StSuccess (name f); ReadFile output_file;
                        StDownloadButton output_filename output_file], Ok tt)
            else (t ++ [StSuccess (name f); ReadFile output_file],
                  Raise (BackendError "read"))
        end
    end.
Proof.
  unfold try_body, call_calculate_layout.
  destruct (calculate_layout ps li) as [li' [layout | e]]; [| reflexivity].
  unfold io_bind at 1. cbn [io_ret fst snd app].
  destruct (create_pdf_labels env ps li' layout _) as [t [o | e]]; [| reflexivity].
  unfold io_bind, ui, backend. cbn [fst snd app].
  destruct (call_ok env (ReadFile o)); reflexivity.
Qed.

(** What the body of the [try] does, by exit: it returns after a
    successful [save] followed by the success message, the read of the
    saved file and the download button; or it raises, having shown no
    download button and called [save] at most once. *)
Lemma try_body_shape (env : Env) (w : Widgets) (f : UploadedFile)
    (ps : PageSettings) (li : LabelInfo) :
  let out := format_output_filename env (name f) (page_size_display w)
               (label_rows w * label_columns w) in
  (exists body,
      Forall (fun e => quiet e = true /\ is_save e = false) body /\
      try_body env w f ps li
      = (body ++ [Save out; StSuccess (name f); ReadFile out; StDownloadButton out out],
         Ok tt) /\
      call_ok env (Save out) = true)
  \/ (exists pre e,
         try_body env w f ps li = (pre, Raise e) /\
         Forall (fun e => quiet e = true) pre /\
         (count_saves pre <= 1)%nat).
Proof.
  intro out. rewrite try_body_exits.
  destruct (calculate_layout ps li) as [li' [layout | e]].
  2:{ right. exists [], e. repeat split; [constructor | unfold count_saves; simpl; lia]. }
  cbv zeta. fold out.
  destruct (create_pdf_labels_shape env ps li' layout out)
    as (body & Hb & [[E Hs] | [[E Hs] | [e [E _]]]]);
    rewrite E; destruct (quiet_no_save body Hb) as [Hq Hc].
  - destruct (call_ok env (ReadFile out)) eqn:Er.
    + left. exists body. split; [exact Hb |]. split; [| exact Hs].
      f_equal. exact (eq_sym (app_assoc body [Save out] _)).
    + right. exists (body ++ [Save out; StSuccess (name f); ReadFile out]).
      eexists. split; [f_equal; exact (eq_sym (app_assoc body [Save out] _)) |].
      split.
      * apply Forall_app. split; [exact Hq | repeat constructor].
      * rewrite count_saves_app, Hc. unfold count_saves. simpl. lia.
  - right. exists (body ++ [Save out]). eexists. split; [reflexivity |]. split.
    + apply Forall_app. split; [exact Hq | repeat constructor].
    + rewrite count_saves_app, Hc. unfold count_saves. simpl. lia.
  - right. exists body, e. split; [reflexivity |]. split; [exact Hq | lia].
Qed.

Lemma parse_dimensions_silent (env : Env) (s : string) :
  fst (parse_dimensions env s) = [].
Proof.
  unfold parse_dimensions.
  destruct (map (float_of_string env) (split_x s)) as [| [a |] [| [b |] [| c l]]];
    reflexivity.
Qed.

Lemma try_except_report (f : UploadedFile) (c : IO unit) :
  try_except c (fun e => ui (StError (name f) e))
  = (fst c ++ report f (snd c), Ok tt).
Proof.
  destruct c as [t [[] | e]]; cbn [try_except report fst snd ui].
  - now rewrite app_nil_r.
  - reflexivity.
Qed.

(** A file whose upload is written and for which the text field reads as
    [d]: the [try] runs on its own dictionary and its failure, if any, is
    reported; the loop body returns. *)
Lemma process_label_file_run (env : Env) (w : Widgets) (f : UploadedFile)
    (d : option (Q * Q)) :
  dimensions_read env w d ->
  call_ok env (WriteUpload (name f)) = true ->
  process_label_file env w f
  = (WriteUpload (name f)
       :: fst (try_body env w f (page_settings_of w)
                 (label_info_with d (label_info_of w f)))
       ++ report f (snd (try_body env w f (page_settings_of w)
                           (label_info_with d (label_info_of w f)))),
     Ok tt).
Proof.
  intros Hd Hup. unfold process_label_file, backend. rewrite Hup.
  unfold io_bind at 1. cbn [fst snd].
  destruct Hd as [[Hs ->] | (Hs & wh & Hp & ->)].
  - rewrite Hs. cbn [String.eqb]. unfold io_bind, io_ret. cbn [fst snd app].
    now rewrite try_except_report.
  - apply String.eqb_neq in Hs. rewrite Hs. rewrite Hp.
    unfold io_bind, io_ret. cbn [fst snd app label_info_with].
    now rewrite try_except_report.
Qed.

(** Whatever the backend does, a loop body stops after the upload or runs
    the [try] on some dictionary and reports its failure. *)
Lemma process_label_file_trace (env : Env) (w : Widgets) (f : UploadedFile) :
  fst (process_label_file env w f) = [WriteUpload (name f)]
  \/ exists li,
       fst (process_label_file env w f)
       = WriteUpload (name f)
           :: fst (try_body env w f (page_settings_of w) li)
           ++ report f (snd (try_body env w f (page_settings_of w) li)).
Proof.
  unfold process_label_file, backend.
  destruct (call_ok env (WriteUpload (name f))); [| now left].
  unfold io_bind at 1. cbn [fst snd].
  destruct (String.eqb (label_dimensions w) EmptyString).
  - right. exists (label_info_of w f).
    unfold io_bind, io_ret. cbn [fst snd app]. now rewrite try_except_report.
  - pose proof (parse_dimensions_silent env (label_dimensions w)) as Hsil.
    destruct (parse_dimensions env (label_dimensions w)) as [t [wh | e]];
      cbn [fst] in Hsil; subst t.
    + right. exists (set_dimensions wh (label_info_of w f)).
      unfold io_bind, io_ret. cbn [fst snd app]. now rewrite try_except_report.
    + now left.
Qed.

Lemma quiet_not_exposed (t : list Event) (file data : string) :
  Forall (fun e => quiet e = true) t -> ~ In (StDownloadButton file data) t.
Proof.
  intros Hq Hin. rewrite Forall_forall in Hq. specialize (Hq _ Hin). discriminate.
Qed.

Lemma quiet_not_reported (t : list Event) (n : string) (e : exn) :
  Forall (fun e => quiet e = true) t -> ~ In (StError n e) t.
Proof.
  intros Hq Hin. rewrite Forall_forall in Hq. specialize (Hq _ Hin). discriminate.
Qed.

(** C8, amended.  [create_pdf_labels] calls [save] exactly once, as its
    last call, on the exit where it returns; on an exit where it raises it
    has called [save] at most once, and once only if the raise comes from
    [save] itself; when a [drawImage] call raises, [save] is never called.
    In [main], a download button for a file is only ever shown after the
    one [save] of that file in the same loop body, that [save] returned,
    and no failure is reported in that body: no bytes are handed out on a
    failure. *)
Theorem saved_once_on_success_only (env : Env) :
  (forall ps li layout out,
     let run := create_pdf_labels env ps li layout out in
     (forall f, snd run = Ok f ->
        f = out /\ call_ok env (Save out) = true /\
        count_saves (fst run) = 1%nat /\
        exists body, fst run = body ++ [Save out]) /\
     (forall e, snd run = Raise e ->
        (count_saves (fst run) <= 1)%nat /\
        (count_saves (fst run) = 1%nat ->
         e = BackendError "save" /\ call_ok env (Save out) = false)) /\
     (forall e, snd (draw_grid env ps li layout) = Raise e ->
        count_saves (fst run) = 0%nat)) /\
  (forall w label_file file data,
     let t := fst (process_label_file env w label_file) in
     In (StDownloadButton file data) t ->
     call_ok env (Save data) = true /\
     count_saves t = 1%nat /\
     (exists pre post,
         t = pre ++ Save data :: post /\ In (StDownloadButton file data) post) /\
     (forall n e, ~ In (StError n e) t)).
Proof.
  split.
  - intros ps li layout out run. subst run.
    split; [| split].
    + intros f Hf.
      destruct (create_pdf_labels_shape env ps li layout out)
        as (body & Hb & [[E Hs] | [[E Hs] | [e [E _]]]]);
        rewrite E in *; cbn [fst snd] in *; try discriminate.
      injection Hf as <-.
      destruct (quiet_no_save body Hb) as [_ Hc].
      repeat split; try assumption.
      * rewrite count_saves_app, Hc. reflexivity.
      * now exists body.
    + intros e He.
      destruct (create_pdf_labels_shape env ps li layout out)
        as (body & Hb & [[E Hs] | [[E Hs] | [e' [E _]]]]);
        rewrite E in *; cbn [fst snd] in *; try discriminate;
        destruct (quiet_no_save body Hb) as [_ Hc].
      * injection He as <-. rewrite count_saves_app, Hc.
        split; [unfold count_saves; simpl; lia | auto].
      * rewrite Hc. split; [lia | discriminate].
    + intros e He. rewrite create_pdf_labels_exits, He.
      pose proof (count_saves_none _ (draw_grid_no_save env ps li layout)) as Hc.
      destruct (call_ok env (NewCanvas out (page_size ps))); [| reflexivity].
      destruct (call_ok env (ImageReader (path li))); [| reflexivity].
      cbn [negb fst]. exact Hc.
  - intros w f file data t Hin. subst t.
    destruct (process_label_file_trace env w f) as [E | [li E]]; rewrite E in *.
    { destruct Hin as [H | []]. discriminate. }
    destruct (try_body_shape env w f (page_settings_of w) li)
      as [(body & Hb & Et & Hs) | (pre & e & Et & Hq & Hc)];
      rewrite Et in *; cbn [fst snd report] in *.
    + destruct (quiet_no_save body Hb) as [Hq Hc].
      set (out := format_output_filename env (name f) (page_size_display w)
                    (label_rows w * label_columns w)) in *.
      rewrite app_nil_r in *.
      assert (Hfd : file = out /\ data = out).
      { destruct Hin as [H | H]; [discriminate |].
        apply in_app_or in H. destruct H as [H | H];
          [exfalso; exact (quiet_not_exposed _ _ _ Hq H) |].
        destruct H as [H | [H | [H | [H | []]]]]; try discriminate.
        injection H as <- <-. now split. }
      destruct Hfd as [-> ->].
      split; [exact Hs |]. split; [| split].
      * change (count_saves ([WriteUpload (name f)] ++ body
                  ++ [Save out; StSuccess (name f); ReadFile out;
                      StDownloadButton out out]) = 1%nat).
        rewrite !count_saves_app, Hc. reflexivity.
      * exists (WriteUpload (name f) :: body),
          [StSuccess (name f); ReadFile out; StDownloadButton out out].
        split; [reflexivity | simpl; auto].
      * intros n e [H | H]; [discriminate |].
        apply in_app_or in H. destruct H as [H | H];
          [exact (quiet_not_reported _ _ _ Hq H) |].
        destruct H as [H | [H | [H | [H | []]]]]; discriminate.
    + exfalso. destruct Hin as [H | H]; [discriminate |].
      apply in_app_or in H. destruct H as [H | H];
        [exact (quiet_not_exposed _ _ _ Hq H) |].
      destruct H as [H | []]. discriminate.
Qed.

Lemma saved_once_on_success_only_witness :
  snd (create_pdf_labels env_all_ok page_210_297 label_2x2 layout_95 "label-a4-4.pdf")
  = Ok "label-a4-4.pdf"%string
  /\ count_saves
       (fst (create_pdf_labels env_all_ok page_210_297 label_2x2 layout_95
               "label-a4-4.pdf"))
     = 1%nat.
Proof.
  assert (Hret : snd (create_pdf_labels env_all_ok page_210_297 label_2x2 layout_95
                        "label-a4-4.pdf") = Ok "label-a4-4.pdf"%string)
    by reflexivity.
  split; [exact Hret |].
  destruct (saved_once_on_success_only env_all_ok) as [Hrender _].
  destruct (Hrender page_210_297 label_2x2 layout_95 "label-a4-4.pdf"%string)
    as [Hok _].
  destruct (Hok _ Hret) as (_ & _ & Hcount & _).
  exact Hcount.
Defined.

Lemma flat_map_ext_in {A B} (f g : A -> list B) (l : list A) :
  (forall a, In a l -> f a = g a) -> flat_map f l = flat_map g l.
Proof.
  intro H. induction l as [| a l IH]; [reflexivity |].
  cbn [flat_map]. rewrite (H a (or_introl eq_refl)), IH; [reflexivity |].
  intros b Hb. apply H. now right.
Qed.

(** C9.  When the button is pressed on a batch whose uploads are written
    and whose dimension field reads, [main] returns, whatever fails inside
    a [try]: its run is, file after file, the upload, the calls of that
    file's own attempt and, if that attempt raised (the too-large
    [ValueError] or a backend failure), one error message naming the file
    and the exception.  An attempt that returns has saved its document and
    shown its download button; an attempt whose layout is refused makes no
    call at all. *)
Theorem batch_failures_isolated (env : Env) (w : Widgets)
    (files : list UploadedFile) (d : option (Q * Q)) :
  process_button w = true -> label_files w = Some files ->
  dimensions_read env w d ->
  (forall f, In f files -> call_ok env (WriteUpload (name f)) = true) ->
  let attempt := fun f =>
    try_body env w f (page_settings_of w) (label_info_with d (label_info_of w f)) in
  let output := fun f =>
    format_output_filename env (name f) (page_size_display w)
      (label_rows w * label_columns w) in
  snd (main env w) = Ok tt /\
  fst (main env w)
  = flat_map (fun f => WriteUpload (name f)
                         :: fst (attempt f) ++ report f (snd (attempt f))) files /\
  (forall f, snd (attempt f) = Ok tt ->
     call_ok env (Save (output f)) = true /\
     exists body,
       fst (attempt f)
       = body ++ [Save (output f); StSuccess (name f); ReadFile (output f);
                  StDownloadButton (output f) (output f)]) /\
  (forall f e,
     snd (calculate_layout (page_settings_of w) (label_info_with d (label_info_of w f)))
     = Raise e ->
     attempt f = ([], Raise e)).
Proof.
  intros Hbutton Hfiles Hd Hup attempt output.
  assert (Hrun : forall f, In f files ->
             process_label_file env w f
             = (WriteUpload (name f) :: fst (attempt f) ++ report f (snd (attempt f)),
                Ok tt))
    by (intros f Hf; apply process_label_file_run; auto).
  unfold main. rewrite Hbutton, Hfiles.
  rewrite for_each_returns by (intros f Hf; now rewrite Hrun).
  cbn [fst snd].
  split; [reflexivity |]. split; [| split].
  - apply flat_map_ext_in. intros f Hf. now rewrite Hrun.
  - intros f Hok. subst attempt output. cbn beta in *.
    destruct (try_body_shape env w f (page_settings_of w)
                (label_info_with d (label_info_of w f)))
      as [(body & _ & Et & Hs) | (pre & e & Et & _)];
      rewrite Et in *; cbn [fst snd] in *; [| discriminate].
    split; [exact Hs | now exists body].
  - intros f e He. subst attempt. cbn beta. rewrite try_body_exits.
    destruct (calculate_layout (page_settings_of w)
                (label_info_with d (label_info_of w f))) as [li' [layout | e']];
      cbn [snd] in He; [discriminate |].
    now injection He as ->.
Qed.

Lemma batch_failures_isolated_witness :
  (process_button batch_of_three = true
   /\ dimensions_read env_unreadable_b batch_of_three None)
  /\ snd (main env_unreadable_b batch_of_three) = Ok tt
  /\ filter (fun e => negb (is_draw e)) (fst (main env_unreadable_b batch_of_three))
     = [ WriteUpload "a.png"; NewCanvas "a.png.pdf" (210, 297); ImageReader "a.png";
         Save "a.png.pdf"; StSuccess "a.png"; ReadFile "a.png.pdf";
         StDownloadButton "a.png.pdf" "a.png.pdf";
         WriteUpload "b.png"; NewCanvas "b.png.pdf" (210, 297); ImageReader "b.png";
         StError "b.png" (BackendError "ImageReader");
         WriteUpload "c.png"; NewCanvas "c.png.pdf" (210, 297); ImageReader "c.png";
         Save "c.png.pdf"; StSuccess "c.png"; ReadFile "c.png.pdf";
         StDownloadButton "c.png.pdf" "c.png.pdf" ].
Proof.
  assert (Hd : dimensions_read env_unreadable_b batch_of_three None)
    by (left; split; reflexivity).
  split; [split; [reflexivity | exact Hd] |].
  destruct (batch_failures_isolated env_unreadable_b batch_of_three
              [ {| name := "a.png" |}; {| name := "b.png" |}; {| name := "c.png" |} ]
              None eq_refl eq_refl Hd (fun f _ => eq_refl))
    as (Hret & Htrace & _).
  split; [exact Hret |].
  rewrite Htrace. vm_compute. reflexivity.
Defined.

(** * Further properties of the layout calculator *)

Lemma label_info_after_fields (ps : PageSettings) (li : LabelInfo) :
  path (label_info_after ps li) = path li /\
  rows (label_info_after ps li) = rows li /\
  columns (label_info_after ps li) = columns li.
Proof. unfold label_info_after. destruct (dimensions li); repeat split. Qed.

(** X1.  [calculate_layout] never changes the path, the rows or the
    columns of the dictionary it is given.  It leaves the dictionary as it
    was when an explicit size is present and when a derived division is by
    zero; otherwise it stores the derived size, converted back to
    millimetres, under ['dimensions'], also when it goes on to raise the
    too-large [ValueError]. *)
Theorem label_info_only_gains_dimensions (ps : PageSettings) (li : LabelInfo) :
  path (fst (calculate_layout ps li)) = path li /\
  rows (fst (calculate_layout ps li)) = rows li /\
  columns (fst (calculate_layout ps li)) = columns li /\
  (forall d, dimensions li = Some d -> fst (calculate_layout ps li) = li) /\
  (dimensions li = None -> (columns li = 0 \/ rows li = 0)%Z ->
   fst (calculate_layout ps li) = li) /\
  (dimensions li = None -> columns li <> 0%Z -> rows li <> 0%Z ->
   dimensions (fst (calculate_layout ps li))
   = Some (available_width ps / inject_Z (columns li) / mm,
           available_height ps / inject_Z (rows li) / mm)).
Proof.
  destruct (dimensions li) as [d |] eqn:Hd.
  - rewrite calculate_layout_eq by (rewrite Hd; discriminate). cbn [fst].
    unfold label_info_after. rewrite Hd.
    repeat split; try reflexivity; discriminate.
  - destruct (Z.eq_dec (columns li) 0) as [Hc | Hc];
      [| destruct (Z.eq_dec (rows li) 0) as [Hr | Hr]].
    + rewrite calculate_layout_zero_division by auto. cbn [fst].
      repeat split; try reflexivity; try discriminate. contradiction.
    + rewrite calculate_layout_zero_division by auto. cbn [fst].
      repeat split; try reflexivity; try discriminate. contradiction.
    + rewrite calculate_layout_eq by auto. cbn [fst].
      unfold label_info_after, cell_size. rewrite Hd. cbn [fst snd].
      repeat split; try reflexivity; try discriminate.
      intros _ [H | H]; contradiction.
Qed.

Lemma label_info_only_gains_dimensions_witness :
  snd (calculate_layout page_negative_width (with_columns 2 label_1x1))
  = Raise (ValueError too_large_msg)
  /\ dimensions (fst (calculate_layout page_negative_width (with_columns 2 label_1x1)))
     = Some (available_width page_negative_width / inject_Z 2 / mm,
             available_height page_negative_width / inject_Z 1 / mm).
Proof.
  split; [reflexivity |].
  destruct (label_info_only_gains_dimensions page_negative_width
              (with_columns 2 label_1x1)) as (_ & _ & _ & _ & _ & Hset).
  apply Hset; [reflexivity | discriminate | discriminate].
Defined.




(** * Further properties of the grid renderer *)

Lemma range_empty (n : Z) : (n <= 0)%Z -> range n = [].
Proof. intro Hn. unfold range. now replace (Z.to_nat n) with 0%nat by lia. Qed.

Lemma grid_calls_empty (ps : PageSettings) (li : LabelInfo) (layout : Layout) :
  (rows li <= 0 \/ columns li <= 0)%Z -> grid_calls ps li layout = [].
Proof.
  intros [H | H]; unfold grid_calls; rewrite (range_empty _ H); [reflexivity |].
  induction (range (rows li)) as [| r l IH]; [reflexivity | exact IH].
Qed.

Lemma draw_grid_empty (env : Env) (ps : PageSettings) (li : LabelInfo) (layout : Layout) :
  (rows li <= 0 \/ columns li <= 0)%Z -> draw_grid env ps li layout = ([], Ok tt).
Proof.
  intro H.
  destruct (draw_grid_prefix env ps li layout) as [[k Hk] _].
  rewrite (grid_calls_empty ps li layout H), firstn_nil in Hk.
  assert (Hret : snd (draw_grid env ps li layout) = Ok tt).
  { unfold draw_grid. destruct H as [H | H]; rewrite (range_empty _ H).
    - reflexivity.
    - now rewrite for_each_returns. }
  destruct (draw_grid env ps li layout) as [t r]. cbn [fst snd] in *. now subst.
Qed.

(** X4.  A grid without rows or without columns: [create_pdf_labels] makes
    no [drawImage] call at all, and when the canvas, the image reader and
    [save] return it still saves a document, an empty page, and returns
    its name. *)
Theorem empty_grid_saves_blank_page (env : Env) (ps : PageSettings) (li : LabelInfo)
    (layout : Layout) (out : string) :
  (rows li <= 0 \/ columns li <= 0)%Z ->
  draw_calls (fst (create_pdf_labels env ps li layout out)) = [] /\
  (call_ok env (NewCanvas out (page_size ps)) = true ->
   call_ok env (ImageReader (path li)) = true ->
   call_ok env (Save out) = true ->
   create_pdf_labels env ps li layout out
   = ([NewCanvas out (page_size ps); ImageReader (path li); Save out], Ok out)).
Proof.
  intro H. split.
  - destruct (create_pdf_labels_draws env ps li layout out) as [[k Hk] _].
    now rewrite Hk, (grid_calls_empty ps li layout H), firstn_nil.
  - intros Hc Hi Hs.
    rewrite create_pdf_labels_exits, Hc, Hi, Hs, (draw_grid_empty env ps li layout H).
    reflexivity.
Qed.

Lemma empty_grid_saves_blank_page_witness :
  (rows (with_columns 0 label_2x2) <= 0 \/ columns (with_columns 0 label_2x2) <= 0)%Z
  /\ create_pdf_labels env_all_ok page_210_297 (with_columns 0 label_2x2) layout_95
       "blank.pdf"
     = ([NewCanvas "blank.pdf" (210, 297); ImageReader "label.png"; Save "blank.pdf"],
        Ok "blank.pdf"%string).
Proof.
  assert (H : (rows (with_columns 0 label_2x2) <= 0
               \/ columns (with_columns 0 label_2x2) <= 0)%Z) by (right; simpl; lia).
  split; [exact H |].
  exact (proj2 (empty_grid_saves_blank_page env_all_ok page_210_297
                  (with_columns 0 label_2x2) layout_95 "blank.pdf" H)
           eq_refl eq_refl eq_refl).
Defined.

(** * Further properties of the batch loop *)

Lemma for_each_app {A} (l1 l2 : list A) (body : A -> IO unit) :
  for_each (l1 ++ l2) body
  = io_bind (for_each l1 body) (fun _ => for_each l2 body).
Proof.
  induction l1 as [| a l1 IH]; cbn [app for_each].
  - unfold io_bind, io_ret. cbn [fst snd app]. now destruct (for_each l2 body).
  - rewrite IH. unfold io_bind.
    destruct (body a) as [t [[] | e]]; [| reflexivity].
    destruct (for_each l1 body) as [t1 [[] | e1]]; cbn [fst snd].
    + now rewrite app_assoc.
    + reflexivity.
Qed.

Lemma parse_dimensions_outcome (env : Env) (s : string) :
  (exists wh, parse_dimensions env s = ([], Ok wh))
  \/ parse_dimensions env s = ([], Raise (ValueError "label dimensions")).
Proof.
  unfold parse_dimensions.
  destruct (map (float_of_string env) (split_x s)) as [| [a |] [| [b |] [| c l]]];
    try (now right).
  left. now eexists.
Qed.

(** X8.  A dimension text that does not read as two numbers is not behind
    the failure boundary: with a non-empty text that [parse_dimensions]
    refuses, [main] writes the first upload and then raises the
    [ValueError] of line 88; no other file of the batch is touched and no
    error message is shown. *)
Theorem malformed_dimensions_abort_batch (env : Env) (w : Widgets)
    (f : UploadedFile) (rest : list UploadedFile) :
  process_button w = true -> label_files w = Some (f :: rest) ->
  label_dimensions w <> EmptyString ->
  (forall wh, parse_dimensions env (label_dimensions w) <> ([], Ok wh)) ->
  call_ok env (WriteUpload (name f)) = true ->
  main env w = ([WriteUpload (name f)], Raise (ValueError "label dimensions")).
Proof.
  intros Hbutton Hfiles Hne Hbad Hup.
  unfold main. rewrite Hbutton, Hfiles. cbn [for_each].
  unfold process_label_file, backend. rewrite Hup.
  apply String.eqb_neq in Hne. rewrite Hne.
  destruct (parse_dimensions_outcome env (label_dimensions w)) as [[wh E] | E].
  - now destruct (Hbad wh).
  - rewrite E. reflexivity.
Qed.

Lemma malformed_dimensions_abort_batch_witness :
  (process_button batch_bad_dimensions = true
   /\ label_dimensions batch_bad_dimensions <> EmptyString)
  /\ main env_all_ok batch_bad_dimensions
     = ([WriteUpload "a.png"], Raise (ValueError "label dimensions")).
Proof.
  assert (Hne : label_dimensions batch_bad_dimensions <> EmptyString) by discriminate.
  split; [split; [reflexivity | exact Hne] |].
  apply (malformed_dimensions_abort_batch env_all_ok batch_bad_dimensions
           {| name := "a.png" |} [ {| name := "b.png" |}; {| name := "c.png" |} ]
           eq_refl eq_refl Hne).
  - intros wh H. vm_compute in H. discriminate.
  - reflexivity.
Defined.

(** X9.  Writing the upload is not behind the failure boundary either:
    when the upload of one file cannot be written, [main] raises at that
    file, after the complete runs of the files before it; the files after
    it are never touched and no error message is shown for it. *)
Theorem failed_upload_aborts_batch (env : Env) (w : Widgets)
    (before : list UploadedFile) (f : UploadedFile) (after : list UploadedFile)
    (d : option (Q * Q)) :
  process_button w = true -> label_files w = Some (before ++ f :: after) ->
  dimensions_read env w d ->
  (forall g, In g before -> call_ok env (WriteUpload (name g)) = true) ->
  call_ok env (WriteUpload (name f)) = false ->
  main env w
  = (flat_map (fun g => fst (process_label_file env w g)) before
       ++ [WriteUpload (name f)],
     Raise (BackendError "open")).
Proof.
  intros Hbutton Hfiles Hd Hup Hfail.
  unfold main. rewrite Hbutton, Hfiles, for_each_app.
  rewrite (for_each_returns before)
    by (intros g Hg; now rewrite (process_label_file_run env w g d Hd (Hup g Hg))).
  cbn [for_each]. unfold io_bind at 1. cbn [fst snd].
  unfold process_label_file, backend. rewrite Hfail. reflexivity.
Qed.

Lemma failed_upload_aborts_batch_witness :
  (process_button batch_of_three = true
   /\ dimensions_read env_upload_b_fails batch_of_three None
   /\ call_ok env_upload_b_fails (WriteUpload "b.png") = false)
  /\ snd (main env_upload_b_fails batch_of_three) = Raise (BackendError "open")
  /\ ~ In (WriteUpload "c.png") (fst (main env_upload_b_fails batch_of_three)).
Proof.
  assert (Hd : dimensions_read env_upload_b_fails batch_of_three None)
    by (left; split; reflexivity).
  split; [repeat split; solve [reflexivity | exact Hd] |].
  pose proof (failed_upload_aborts_batch env_upload_b_fails batch_of_three
                [ {| name := "a.png" |} ] {| name := "b.png" |}
                [ {| name := "c.png" |} ] None eq_refl eq_refl Hd) as H.
  rewrite H.
  - split; [reflexivity |].
    cbn [fst]. intro Hin. apply in_app_or in Hin. destruct Hin as [Hin | Hin].
    + vm_compute in Hin. repeat (destruct Hin as [Hin | Hin]; [discriminate |]).
      exact Hin.
    + destruct Hin as [Hin | []]. discriminate.
  - intros g [<- | []]. reflexivity.
  - reflexivity.
Defined.

(** The outcome of [calculate_layout] does not depend on the image. *)
Lemma layout_ignores_path (ps : PageSettings) (li li' : LabelInfo) :
  rows li = rows li' -> columns li = columns li' -> dimensions li = dimensions li' ->
  snd (calculate_layout ps li) = snd (calculate_layout ps li').
Proof.
  intros Hr Hc Hd.
  assert (Hsize : cell_size ps li = cell_size ps li')
    by (unfold cell_size; now rewrite Hr, Hc, Hd).
  destruct (dimensions li) as [d |] eqn:E.
  - rewrite !calculate_layout_eq by (rewrite <- ?Hd, ?E; discriminate).
    cbn [snd]. now rewrite Hsize, Hr, Hc.
  - destruct (Z.eq_dec (columns li) 0) as [Hz | Hz];
      [| destruct (Z.eq_dec (rows li) 0) as [Hz' | Hz']].
    + rewrite !calculate_layout_zero_division by (rewrite <- ?Hd, <- ?Hc; auto).
      reflexivity.
    + rewrite !calculate_layout_zero_division by (rewrite <- ?Hd, <- ?Hr; auto).
      reflexivity.
    + rewrite !calculate_layout_eq by (rewrite <- ?Hc, <- ?Hr; auto).
      cbn [snd]. now rewrite Hsize, Hr, Hc.
Qed.

(** X10.  A refused layout is refused for the whole batch: the layout
    depends on the page, the counts and the dimensions only, so when
    [calculate_layout] raises for one file of a batch (uploads written,
    dimension field read) it raises for every file; [main] then shows one
    error message per file and never creates a canvas. *)
Theorem layout_refusal_is_batch_wide (env : Env) (w : Widgets)
    (files : list UploadedFile) (d : option (Q * Q)) (f : UploadedFile) (e : exn) :
  process_button w = true -> label_files w = Some files ->
  dimensions_read env w d ->
  (forall g, In g files -> call_ok env (WriteUpload (name g)) = true) ->
  In f files ->
  snd (calculate_layout (page_settings_of w) (label_info_with d (label_info_of w f)))
  = Raise e ->
  main env w
  = (flat_map (fun g => [WriteUpload (name g); StError (name g) e]) files, Ok tt).
Proof.
  intros Hbutton Hfiles Hd Hup Hf He.
  assert (Hrun : forall g, In g files ->
             process_label_file env w g
             = ([WriteUpload (name g); StError (name g) e], Ok tt)).
  { intros g Hg. rewrite (process_label_file_run env w g d Hd (Hup g Hg)).
    rewrite try_body_exits.
    assert (Hg' : snd (calculate_layout (page_settings_of w)
                         (label_info_with d (label_info_of w g))) = Raise e).
    { rewrite <- He. apply layout_ignores_path; destruct d; reflexivity. }
    destruct (calculate_layout (page_settings_of w)
                (label_info_with d (label_info_of w g))) as [li' [layout | e']];
      cbn [snd] in Hg'; [discriminate |].
    injection Hg' as ->. reflexivity. }
  unfold main. rewrite Hbutton, Hfiles.
  rewrite for_each_returns by (intros g Hg; now rewrite Hrun).
  f_equal. apply flat_map_ext_in. intros g Hg. now rewrite Hrun.
Qed.

Lemma layout_refusal_is_batch_wide_witness :
  (process_button batch_too_large = true
   /\ dimensions_read env_reads_100_10 batch_too_large (Some (100, 10)))
  /\ main env_reads_100_10 batch_too_large
     = ([ WriteUpload "a.png"; StError "a.png" (ValueError too_large_msg);
          WriteUpload "b.png"; StError "b.png" (ValueError too_large_msg);
          WriteUpload "c.png"; StError "c.png" (ValueError too_large_msg) ],
        Ok tt).
Proof.
  assert (Hd : dimensions_read env_reads_100_10 batch_too_large (Some (100, 10))).
  { right. split; [discriminate |]. exists (100, 10). split; reflexivity. }
  split; [split; [reflexivity | exact Hd] |].
  apply (layout_refusal_is_batch_wide env_reads_100_10 batch_too_large
           [ {| name := "a.png" |}; {| name := "b.png" |}; {| name := "c.png" |} ]
           (Some (100, 10)) {| name := "b.png" |} (ValueError too_large_msg)
           eq_refl eq_refl Hd).
  - intros g _. reflexivity.
  - simpl. auto.
  - reflexivity.
Defined.

(** X11.  The success message comes before the saved document is read
    back: when the layout is accepted and the rendering returns but the
    read of line 98 fails, the run of that file ends with the [save], the
    success message, the failed read and an error message for the same
    file, and no download button is shown. *)
Theorem failed_read_reports_success_then_error (env : Env) (w : Widgets)
    (f : UploadedFile) (d : option (Q * Q)) (li' : LabelInfo) (layout : Layout) :
  let out := format_output_filename env (name f) (page_size_display w)
               (label_rows w * label_columns w) in
  dimensions_read env w d ->
  call_ok env (WriteUpload (name f)) = true ->
  calculate_layout (page_settings_of w) (label_info_with d (label_info_of w f))
  = (li', Ok layout) ->
  snd (create_pdf_labels env (page_settings_of w) li' layout out) = Ok out ->
  call_ok env (ReadFile out) = false ->
  (exists body,
      fst (process_label_file env w f)
      = WriteUpload (name f)
          :: body ++ [Save out; StSuccess (name f); ReadFile out;
                      StError (name f) (BackendError "read")])
  /\ forall file data, ~ In (StDownloadButton file data) (fst (process_label_file env w f)).
Proof.
  intros out Hd Hup Hcalc Hret Hread.
  rewrite (process_label_file_run env w f d Hd Hup), try_body_exits, Hcalc.
  cbv zeta. fold out.
  destruct (create_pdf_labels_shape env (page_settings_of w) li' layout out)
    as (body & Hb & [[E Hs] | [[E Hs] | [e [E _]]]]);
    rewrite E in Hret |- *; cbn [snd] in Hret; try discriminate.
  rewrite Hread. cbn [fst snd report].
  destruct (quiet_no_save body Hb) as [Hq _].
  split.
  - exists body. f_equal. rewrite <- !app_assoc. reflexivity.
  - intros file data [H | H]; [discriminate |].
    repeat (apply in_app_or in H; destruct H as [H | H]).
    + exact (quiet_not_exposed _ _ _ Hq H).
    + destruct H as [H | []]. discriminate.
    + destruct H as [H | [H | []]]; discriminate.
    + destruct H as [H | []]. discriminate.
Qed.

Lemma failed_read_reports_success_then_error_witness :
  (dimensions_read env_read_fails batch_of_three None
   /\ call_ok env_read_fails (ReadFile "a.png.pdf") = false)
  /\ exists body,
       fst (process_label_file env_read_fails batch_of_three {| name := "a.png" |})
       = WriteUpload "a.png"
           :: body ++ [Save "a.png.pdf"; StSuccess "a.png"; ReadFile "a.png.pdf";
                       StError "a.png" (BackendError "read")].
Proof.
  assert (Hd : dimensions_read env_read_fails batch_of_three None)
    by (left; split; reflexivity).
  split; [split; [exact Hd | reflexivity] |].
  refine (proj1 (failed_read_reports_success_then_error env_read_fails batch_of_three
                   {| name := "a.png" |} None
                   (fst (calculate_layout (page_settings_of batch_of_three)
                           (label_info_of batch_of_three {| name := "a.png" |})))
                   layout_2x2_derived Hd eq_refl _ _ eq_refl)).
  - reflexivity.
  - reflexivity.
Defined.

Lemma grid_calls_ext (ps : PageSettings) (li li' : LabelInfo) (layout : Layout) :
  path li = path li' -> rows li = rows li' -> columns li = columns li' ->
  grid_calls ps li layout = grid_calls ps li' layout.
Proof. intros Hp Hr Hc. unfold grid_calls. now rewrite Hp, Hr, Hc. Qed.

Lemma grid_calls_all_draws (ps : PageSettings) (li : LabelInfo) (layout : Layout) :
  Forall (fun e => is_draw e = true) (grid_calls ps li layout).
Proof.
  unfold grid_calls. apply Forall_flat_map, Forall_forall. intros row _.
  apply Forall_map, Forall_forall. intros col _. reflexivity.
Qed.

Lemma draw_calls_file_run (env : Env) (w : Widgets) (layout : Layout) (f : UploadedFile) :
  draw_calls (file_run env w layout f)
  = grid_calls (page_settings_of w) (label_info_of w f) layout.
Proof.
  unfold file_run, draw_calls. cbn [filter is_draw].
  rewrite filter_app, (filter_all _ _ (grid_calls_all_draws _ _ _)).
  cbn [filter is_draw]. apply app_nil_r.
Qed.

(** Whatever the outcome, the call leaves the path and the counts of the
    dictionary as they were. *)
Lemma calculate_layout_fields (ps : PageSettings) (li : LabelInfo) :
  path (fst (calculate_layout ps li)) = path li /\
  rows (fst (calculate_layout ps li)) = rows li /\
  columns (fst (calculate_layout ps li)) = columns li.
Proof.
  destruct (dimensions li) as [d |] eqn:Hd;
    [| destruct (Z.eq_dec (columns li) 0) as [Hc | Hc];
       [| destruct (Z.eq_dec (rows li) 0) as [Hr | Hr]]].
  - rewrite calculate_layout_eq by (rewrite Hd; discriminate).
    apply label_info_after_fields.
  - rewrite calculate_layout_zero_division by auto. repeat split.
  - rewrite calculate_layout_zero_division by auto. repeat split.
  - rewrite calculate_layout_eq by auto. apply label_info_after_fields.
Qed.

(** X12.  A whole batch when nothing fails.  With the button pressed, the
    dimension field read, at least one row and one column and a backend
    whose calls all return: when [calculate_layout] returns a layout for
    one file of the batch, it returns that layout for every file, [main]
    returns, and the run is, file after file: the upload, a new canvas of
    the page size, the image reader, the whole grid of [drawImage] calls
    with that layout, [save], the success message, the read of the saved
    file and the download button.  So the batch makes [rows * columns]
    [drawImage] calls per file and shows no error message. *)
Theorem batch_on_cooperative_backend (env : Env) (w : Widgets)
    (files : list UploadedFile) (d : option (Q * Q)) (f : UploadedFile)
    (layout : Layout) :
  process_button w = true -> label_files w = Some files ->
  dimensions_read env w d ->
  (1 <= label_rows w)%Z -> (1 <= label_columns w)%Z ->
  (forall e, call_ok env e = true) ->
  In f files ->
  snd (calculate_layout (page_settings_of w) (label_info_with d (label_info_of w f)))
  = Ok layout ->
  main env w = (flat_map (file_run env w layout) files, Ok tt) /\
  List.length (draw_calls (fst (main env w)))
  = (List.length files * Z.to_nat (label_rows w * label_columns w))%nat /\
  forall n e, ~ In (StError n e) (fst (main env w)).
Proof.
  intros Hbutton Hfiles Hd Hr Hc Hok Hf Hl.
  set (ps := page_settings_of w).
  assert (Hrun : forall g, process_label_file env w g = (file_run env w layout g, Ok tt)).
  { intro g.
    rewrite (process_label_file_run env w g d Hd (Hok _)). fold ps.
    rewrite try_body_exits.
    assert (Hg : snd (calculate_layout ps (label_info_with d (label_info_of w g)))
                 = Ok layout).
    { rewrite <- Hl. apply layout_ignores_path; destruct d; reflexivity. }
    destruct (calculate_layout_fields ps (label_info_with d (label_info_of w g)))
      as (Hp & Hrows & Hcols).
    destruct (calculate_layout ps (label_info_with d (label_info_of w g)))
      as [li' [layout' | e']]; cbn [fst snd] in *; [| discriminate].
    injection Hg as ->. cbv zeta.
    rewrite (create_pdf_labels_returns env ps _ layout _ Hok), Hok.
    assert (Hp' : path li' = path (label_info_of w g))
      by (rewrite Hp; destruct d; reflexivity).
    assert (Hrows' : rows li' = rows (label_info_of w g))
      by (rewrite Hrows; destruct d; reflexivity).
    assert (Hcols' : columns li' = columns (label_info_of w g))
      by (rewrite Hcols; destruct d; reflexivity).
    rewrite (grid_calls_ext ps _ (label_info_of w g) layout Hp' Hrows' Hcols'), Hp'.
    cbn [fst snd report]. unfold file_run.
    rewrite app_nil_r. f_equal. cbn [app]. do 3 f_equal.
    rewrite <- app_assoc. reflexivity. }
  assert (Hmain : main env w = (flat_map (file_run env w layout) files, Ok tt)).
  { unfold main. rewrite Hbutton, Hfiles.
    rewrite for_each_returns by (intros g _; now rewrite Hrun).
    f_equal. apply flat_map_ext. intro g. now rewrite Hrun. }
  split; [exact Hmain |].
  rewrite Hmain. cbn [fst]. split.
  - clear Hmain Hfiles Hf. induction files as [| g files IH]; [reflexivity |].
    cbn [flat_map List.length]. unfold draw_calls in *.
    rewrite filter_app, length_app.
    fold (draw_calls (file_run env w layout g)).
    rewrite draw_calls_file_run, length_grid_calls by (cbn; lia).
    cbn [rows columns label_info_of]. lia.
  - intros n e Hin. apply in_flat_map in Hin. destruct Hin as (g & _ & Hin).
    unfold file_run in Hin.
    repeat (destruct Hin as [Hin | Hin]; [discriminate |]).
    apply in_app_or in Hin. destruct Hin as [Hin | Hin].
    + pose proof (grid_calls_all_draws ps (label_info_of w g) layout) as Hall.
      rewrite Forall_forall in Hall. specialize (Hall _ Hin). discriminate.
    + repeat (destruct Hin as [Hin | Hin]; [discriminate |]). exact Hin.
Qed.

Lemma batch_on_cooperative_backend_witness :
  (process_button batch_of_three = true
   /\ dimensions_read env_all_ok batch_of_three None
   /\ (1 <= label_rows batch_of_three)%Z /\ (1 <= label_columns batch_of_three)%Z
   /\ (forall e, call_ok env_all_ok e = true)
   /\ exists layout,
        snd (calculate_layout (page_settings_of batch_of_three)
               (label_info_of batch_of_three {| name := "b.png" |})) = Ok layout)
  /\ snd (main env_all_ok batch_of_three) = Ok tt
  /\ List.length (draw_calls (fst (main env_all_ok batch_of_three))) = 12%nat.
Proof.
  assert (Hd : dimensions_read env_all_ok batch_of_three None)
    by (left; split; reflexivity).
  assert (Hr : (1 <= label_rows batch_of_three)%Z) by (simpl; lia).
  assert (Hc : (1 <= label_columns batch_of_three)%Z) by (simpl; lia).
  assert (Hok : forall e, call_ok env_all_ok e = true) by reflexivity.
  assert (Hl : exists layout,
             snd (calculate_layout (page_settings_of batch_of_three)
                    (label_info_of batch_of_three {| name := "b.png" |})) = Ok layout)
    by (eexists; vm_compute; reflexivity).
  split; [repeat split; assumption |].
  destruct Hl as [layout Hl].
  destruct (batch_on_cooperative_backend env_all_ok batch_of_three
              [ {| name := "a.png" |}; {| name := "b.png" |}; {| name := "c.png" |} ]
              None {| name := "b.png" |} layout
              eq_refl eq_refl Hd Hr Hc Hok)
    as (Hmain & Hlen & _).
  - simpl. auto.
  - exact Hl.
  - split; [now rewrite Hmain | exact Hlen].
Defined.

(** * The dimension field *)

Lemma split_x_nonempty (s : string) : split_x s <> [].
Proof.
  destruct s as [| c s]; cbn [split_x]; [discriminate |].
  destruct (Ascii.eqb c "x"); [discriminate |].
  destruct (split_x s); discriminate.
Qed.

Lemma split_x_no_x (s : string) : has_x s = false -> split_x s = [s].
Proof.
  induction s as [| c s IH]; cbn [has_x split_x]; [reflexivity |].
  intro H. apply orb_false_iff in H. destruct H as [Hc Hs].
  now rewrite Hc, (IH Hs).
Qed.

Lemma split_x_app (a s : string) :
  has_x a = false -> split_x (a ++ "x" ++ s) = a :: split_x s.
Proof.
  induction a as [| c a IH]; cbn [has_x]; intro H.
  - reflexivity.
  - apply orb_false_iff in H. destruct H as [Hc Ha].
    cbn [String.append split_x]. rewrite Hc.
    change (split_x (a ++ String "x" s)) with (split_x (a ++ "x" ++ s)).
    now rewrite (IH Ha).
Qed.

Lemma split_x_cons (s p : string) (l : list string) :
  split_x s = p :: l ->
  has_x p = false /\
  (l = [] -> s = p) /\
  (forall q l', l = q :: l' ->
     exists s', s = (p ++ "x" ++ s')%string /\ split_x s' = q :: l').
Proof.
  revert p l. induction s as [| c s IH]; intros p l; cbn [split_x].
  - intro H. injection H as <- <-. repeat split; [discriminate].
  - destruct (Ascii.eqb c "x") eqn:Ec.
    + apply Ascii.eqb_eq in Ec. subst c.
      intro H. injection H as <- <-. split; [reflexivity |]. split.
      * intro Hnil. now destruct (split_x_nonempty s).
      * intros q l' Hl. exists s. now split.
    + destruct (split_x s) as [| t ts] eqn:Es;
        [now destruct (split_x_nonempty s) |].
      intro H. injection H as <- <-.
      destruct (IH t ts eq_refl) as (Ht & Hone & Hmore).
      split; [cbn [has_x]; now rewrite Ec, Ht |]. split.
      * intro Hnil. now rewrite (Hone Hnil).
      * intros q l' Hl. destruct (Hmore q l' Hl) as (s' & -> & Hs').
        exists s'. now split.
Qed.

(** X13.  What the dimension field accepts.  [parse_dimensions] returns
    the pair [(w, h)] exactly when the text is two pieces around a single
    letter [x], neither piece containing another [x], that [float] reads
    as [w] and as [h]; on every other text (no [x], several, a capital X,
    a piece that is no number) it raises the [ValueError], and in neither
    case does it call anything outside. *)
Theorem parse_dimensions_accepts (env : Env) (s : string) :
  (forall w h,
     parse_dimensions env s = ([], Ok (w, h)) <->
     exists a b, s = (a ++ "x" ++ b)%string /\ has_x a = false /\ has_x b = false /\
                 float_of_string env a = Some w /\ float_of_string env b = Some h) /\
  ((exists wh, parse_dimensions env s = ([], Ok wh))
   \/ parse_dimensions env s = ([], Raise (ValueError "label dimensions"))).
Proof.
  split; [| apply parse_dimensions_outcome].
  intros w h. split.
  - unfold parse_dimensions.
    destruct (split_x s) as [| a [| b [| c l]]] eqn:Es; cbn [map];
      try (destruct (float_of_string env a); discriminate);
      try (destruct (float_of_string env a); destruct (float_of_string env b);
           discriminate).
    + discriminate.
    + destruct (float_of_string env a) as [wa |] eqn:Ea; [| discriminate].
      destruct (float_of_string env b) as [hb |] eqn:Eb; [| discriminate].
      intro H. injection H as <- <-.
      destruct (split_x_cons s a [b] Es) as (Ha & _ & Hmore).
      destruct (Hmore b [] eq_refl) as (s' & -> & Hs').
      destruct (split_x_cons s' b [] Hs') as (Hb & Hone & _).
      rewrite (Hone eq_refl). exists a, b. auto.
  - intros (a & b & -> & Ha & Hb & Hfa & Hfb).
    unfold parse_dimensions.
    rewrite (split_x_app a b Ha), (split_x_no_x b Hb). cbn [map].
    now rewrite Hfa, Hfb.
Qed.

Lemma parse_dimensions_accepts_witness :
  parse_dimensions env_reads_100_10 "100x10" = ([], Ok (100, 10))
  /\ parse_dimensions env_reads_100_10 "100X10"
     = ([], Raise (ValueError "label dimensions")).
Proof.
  split.
  - apply (proj1 (parse_dimensions_accepts env_reads_100_10 "100x10") 100 10).
    exists "100"%string, "10"%string. repeat split.
  - reflexivity.
Defined.

(** * The order of the backend calls *)

Section FirstFailure.

Variable env : Env.

Lemma stops_backend (e : Event) : stops_at_first_failure env (backend env e).
Proof.
  unfold stops_at_first_failure, backend. cbn [fst snd].
  destruct (call_ok env e) eqn:E.
  - now repeat constructor.
  - exists [], e. repeat split. constructor. exact E.
Qed.

Lemma stops_bind {A B} (c : IO A) (k : A -> IO B) :
  stops_at_first_failure env c -> (forall a, stops_at_first_failure env (k a)) ->
  stops_at_first_failure env (io_bind c k).
Proof.
  unfold stops_at_first_failure, io_bind. intros Hc Hk.
  destruct c as [t [a | e]]; cbn [fst snd] in *; [| exact Hc].
  specialize (Hk a). destruct (k a) as [t' [b | e']]; cbn [fst snd] in *.
  - apply Forall_app. now split.
  - destruct Hk as (pre & x & -> & Hpre & Hx & He).
    exists (t ++ pre), x. rewrite app_assoc. repeat split; try assumption.
    apply Forall_app. now split.
Qed.

Lemma stops_for_each {A} (l : list A) (body : A -> IO unit) :
  (forall a, stops_at_first_failure env (body a)) ->
  stops_at_first_failure env (for_each l body).
Proof.
  intro Hb. induction l as [| a l IH]; cbn [for_each].
  - constructor.
  - apply stops_bind; [apply Hb | intros _; exact IH].
Qed.

Lemma stops_create_pdf_labels (ps : PageSettings) (li : LabelInfo) (layout : Layout)
    (out : string) :
  stops_at_first_failure env (create_pdf_labels env ps li layout out).
Proof.
  unfold create_pdf_labels.
  apply stops_bind; [apply stops_backend | intros _].
  apply stops_bind; [apply stops_backend | intros _].
  apply stops_bind.
  - apply stops_for_each. intro row. apply stops_for_each. intro col.
    apply stops_backend.
  - intros _. apply stops_bind; [apply stops_backend | intros _]. constructor.
Qed.

End FirstFailure.

Lemma firstn_app_short {A} (k : nat) (l l' : list A) :
  exists k', firstn k l = firstn k' (l ++ l').
Proof.
  exists (Nat.min k (List.length l)). rewrite firstn_app.
  replace (Nat.min k (List.length l) - List.length l)%nat with 0%nat by lia.
  cbn [firstn]. rewrite app_nil_r.
  destruct (Nat.le_ge_cases k (List.length l)) as [Hle | Hge].
  - now rewrite Nat.min_l.
  - rewrite Nat.min_r by exact Hge. rewrite firstn_all. now apply firstn_all2.
Qed.

(** X14.  [create_pdf_labels] calls the backend in one fixed order and
    gives up at the first call that raises: on any backend its run is a
    prefix of the sequence canvas, image reader, the grid of [drawImage]
    calls row after row, [save]; when it returns every call of the run
    returned, and when it raises, every call but the last returned, the
    last one did not, and the exception is that call's. *)
Theorem render_stops_at_first_failure (env : Env) (ps : PageSettings)
    (li : LabelInfo) (layout : Layout) (out : string) :
  let run := create_pdf_labels env ps li layout out in
  (exists k,
      fst run = firstn k (NewCanvas out (page_size ps) :: ImageReader (path li)
                            :: grid_calls ps li layout ++ [Save out])) /\
  (forall f, snd run = Ok f -> Forall (fun e => call_ok env e = true) (fst run)) /\
  (forall e, snd run = Raise e ->
     exists pre x, fst run = pre ++ [x]
                   /\ Forall (fun e => call_ok env e = true) pre
                   /\ call_ok env x = false
                   /\ e = BackendError (op_name x)).
Proof.
  intro run. subst run. split.
  - rewrite create_pdf_labels_exits.
    destruct (call_ok env (NewCanvas out (page_size ps))); cbn [negb];
      [| now exists 1%nat].
    destruct (call_ok env (ImageReader (path li))); cbn [negb];
      [| now exists 2%nat].
    destruct (draw_grid_prefix env ps li layout) as [[k Hk] Hok].
    destruct (draw_grid env ps li layout) as [t [[] | e]]; cbn [fst snd] in *.
    + rewrite (Hok eq_refl).
      exists (List.length (NewCanvas out (page_size ps) :: ImageReader (path li)
                             :: grid_calls ps li layout ++ [Save out])).
      now rewrite firstn_all.
    + destruct (firstn_app_short k (grid_calls ps li layout) [Save out]) as [k' Hk'].
      exists (S (S k')). cbn [firstn]. now rewrite Hk, Hk'.
  - pose proof (stops_create_pdf_labels env ps li layout out) as H.
    unfold stops_at_first_failure in H.
    destruct (snd (create_pdf_labels env ps li layout out)) as [f | e].
    + split; [intros _ _; exact H | discriminate].
    + split; [discriminate |]. intros e' He. now injection He as <-.
Qed.

Lemma render_stops_at_first_failure_witness :
  snd (create_pdf_labels env_draw_fails page_210_297 label_2x2 layout_95 "label-a4-4.pdf")
  = Raise (BackendError "drawImage")
  /\ exists pre x,
       fst (create_pdf_labels env_draw_fails page_210_297 label_2x2 layout_95
              "label-a4-4.pdf") = pre ++ [x]
       /\ Forall (fun e => call_ok env_draw_fails e = true) pre
       /\ call_ok env_draw_fails x = false.
Proof.
  assert (Hraise : snd (create_pdf_labels env_draw_fails page_210_297 label_2x2
                          layout_95 "label-a4-4.pdf")
                   = Raise (BackendError "drawImage")) by reflexivity.
  split; [exact Hraise |].
  destruct (render_stops_at_first_failure env_draw_fails page_210_297 label_2x2
              layout_95 "label-a4-4.pdf") as (_ & _ & Hstop).
  destruct (Hstop _ Hraise) as (pre & x & Hrun & Hpre & Hx & _).
  exists pre, x. auto.
Defined.

(** * The page size of the sidebar *)

(** X15.  The page size handed on by the sidebar.  With [Landscape] the
    page is never higher than wide: it is the selected size, turned when
    that is higher than wide and left as it is otherwise.  With [Portrait]
    nothing is turned: the three named sizes are higher than wide, but a
    custom size is passed on as typed, so a custom page typed at least as
    wide as high is handed on at least as wide as high.  When the custom
    inputs are at least 1, as the number inputs enforce, both sides are
    positive. *)
Theorem selected_page_size (choice : PageSizeChoice) (width height : Z)
    (orientation : Orientation) :
  let size := fst (select_page_size choice width height orientation) in
  let selected := fst (select_page_size choice width height Portrait) in
  (orientation = Landscape ->
   snd size <= fst size /\
   size = (if Qgtb (snd selected) (fst selected)
           then (snd selected, fst selected) else selected)) /\
  (orientation = Portrait -> size = selected) /\
  (choice <> ChoiceCustom -> fst selected < snd selected) /\
  (choice = ChoiceCustom ->
   selected = (inject_Z width * mm, inject_Z height * mm) /\
   ((height <= width)%Z -> orientation = Portrait -> snd size <= fst size)) /\
  ((1 <= width)%Z -> (1 <= height)%Z -> 0 < fst size /\ 0 < snd size).
Proof.
  intros size selected.
  assert (Hland : forall p : Q * Q,
             snd (reportlab_landscape p) <= fst (reportlab_landscape p) /\
             reportlab_landscape p
             = (if Qgtb (snd p) (fst p) then (snd p, fst p) else p)).
  { intros [a b]. unfold reportlab_landscape. cbn [fst snd].
    destruct (Qgtb b a) eqn:E; cbn [fst snd]; split; try reflexivity.
    - apply Qgtb_true in E. now apply Qlt_le_weak.
    - now apply Qgtb_false in E. }
  assert (Hpos : forall p : Q * Q, 0 < fst p -> 0 < snd p ->
             0 < fst (reportlab_landscape p) /\ 0 < snd (reportlab_landscape p)).
  { intros [a b] Ha Hb. unfold reportlab_landscape. cbn [fst snd] in *.
    destruct (Qgtb b a); cbn [fst snd]; now split. }
  assert (Hsel : (1 <= width)%Z -> (1 <= height)%Z ->
                 0 < fst selected /\ 0 < snd selected).
  { intros Hw Hh. subst selected. pose proof mm_pos.
    pose proof (inject_Z_pos width Hw). pose proof (inject_Z_pos height Hh).
    destruct choice; cbn [select_page_size fst snd A4];
      split; try reflexivity; apply Qmult_lt_0_compat; assumption. }
  subst size selected.
  split; [| split; [| split; [| split]]].
  - intros ->. cbn [select_page_size fst]. apply Hland.
  - intros ->. reflexivity.
  - intro Hc. destruct choice; try reflexivity. now destruct Hc.
  - intros ->. split; [reflexivity |].
    intros Hhw ->. cbn [select_page_size fst snd]. pose proof mm_pos.
    apply Qmult_le_r; [assumption |]. unfold Qle. simpl. lia.
  - intros Hw Hh. destruct orientation.
    + now apply Hsel.
    + apply Hpos; now apply Hsel.
Qed.

Lemma selected_page_size_witness :
  fst (select_page_size ChoiceA4 1 1 Landscape) = (297 * mm, 210 * mm)
  /\ snd (fst (select_page_size ChoiceCustom 300 100 Portrait))
     <= fst (fst (select_page_size ChoiceCustom 300 100 Portrait)).
Proof.
  destruct (selected_page_size ChoiceA4 1 1 Landscape) as [Hland _].
  destruct (Hland eq_refl) as [_ Hsize].
  split; [rewrite Hsize; reflexivity |].
  destruct (selected_page_size ChoiceCustom 300 100 Portrait)
    as (_ & _ & _ & Hcustom & _).
  destruct (Hcustom eq_refl) as [_ Hwide].
  apply Hwide; [lia | reflexivity].
Defined.

(** * What escapes [main] *)

Lemma for_each_raises {A} (l : list A) (body : A -> IO unit) (e : exn) :
  snd (for_each l body) = Raise e -> exists a, In a l /\ snd (body a) = Raise e.
Proof.
  induction l as [| a l IH]; cbn [for_each]; [discriminate |].
  unfold io_bind. destruct (body a) as [t [[] | e']] eqn:Eb; cbn [snd].
  - intro H. destruct (IH H) as (b & Hb & Hr). exists b. split; [now right | exact Hr].
  - intro H. exists a. split; [now left |]. now rewrite Eb.
Qed.

Lemma process_label_file_outcome (env : Env) (w : Widgets) (f : UploadedFile) :
  snd (process_label_file env w f) = Ok tt
  \/ (snd (process_label_file env w f) = Raise (BackendError "open")
      /\ call_ok env (WriteUpload (name f)) = false)
  \/ (snd (process_label_file env w f) = Raise (ValueError "label dimensions")
      /\ label_dimensions w <> EmptyString
      /\ forall wh, parse_dimensions env (label_dimensions w) <> ([], Ok wh)).
Proof.
  unfold process_label_file, backend.
  destruct (call_ok env (WriteUpload (name f))) eqn:Eup;
    [| right; left; split; reflexivity].
  unfold io_bind at 1. cbn [fst snd].
  destruct (String.eqb (label_dimensions w) EmptyString) eqn:Es.
  - left. unfold io_bind, io_ret. cbn [fst snd]. now rewrite try_except_report.
  - apply String.eqb_neq in Es.
    destruct (parse_dimensions_outcome env (label_dimensions w)) as [[wh E] | E];
      rewrite E.
    + left. unfold io_bind, io_ret. cbn [fst snd]. now rewrite try_except_report.
    + right. right. split; [reflexivity |]. split; [exact Es |].
      intros wh H. discriminate.
Qed.

(** X16.  The only exceptions that escape [main] are those raised before
    the [try]: on any backend and for any widget values, [main] returns, or
    raises because an upload could not be written, or raises the
    [ValueError] of a dimension text that does not read as two numbers.
    Neither the too-large [ValueError] of [calculate_layout], nor its
    [ZeroDivisionError], nor a failure of the canvas, the image reader,
    [drawImage], [save] or the read of the saved file ever escapes. *)
Theorem only_pre_try_failures_escape_main (env : Env) (w : Widgets) :
  snd (main env w) = Ok tt
  \/ (snd (main env w) = Raise (BackendError "open")
      /\ exists files f, label_files w = Some files /\ In f files
                         /\ call_ok env (WriteUpload (name f)) = false)
  \/ (snd (main env w) = Raise (ValueError "label dimensions")
      /\ label_dimensions w <> EmptyString
      /\ forall wh, parse_dimensions env (label_dimensions w) <> ([], Ok wh)).
Proof.
  unfold main.
  destruct (process_button w); [| now left].
  destruct (label_files w) as [files |]; [| now left].
  destruct (snd (for_each files (process_label_file env w))) as [[] | e] eqn:E;
    [now left |].
  destruct (for_each_raises _ _ _ E) as (f & Hf & Hr).
  destruct (process_label_file_outcome env w f) as [H | [[H Hup] | [H Hbad]]];
    rewrite H in Hr; [discriminate | |]; injection Hr as <-.
  - right. left. split; [reflexivity |]. now exists files, f.
  - right. right. now split.
Qed.

Lemma only_pre_try_failures_escape_main_witness :
  snd (main env_draw_fails batch_of_three) = Ok tt
  /\ snd (main env_upload_b_fails batch_of_three) = Raise (BackendError "open").
Proof.
  split.
  - destruct (only_pre_try_failures_escape_main env_draw_fails batch_of_three)
      as [H | [[H _] | [H _]]]; [exact H | |]; vm_compute in H; discriminate.
  - reflexivity.
Defined.
